(** * Record aggregation engine of the quality dashboard

    A shallow embedding of the data transformation code of the dashboard
    ([DataTransformer], [utility-functions.js] and the overview assembly
    of [ExcelProcessor]) together with the properties stated for it.

    Reading of the JavaScript values:
    - a number is an IEEE-754 binary64 number ([float]); the document of
      [DataTransformer] and the overview of [ExcelProcessor] are
      computed in that arithmetic, with the rounding of each operation;
    - [calculateRFTRate], [calculateStatistics] and [calculateParetoData]
      are also read in exact arithmetic ([Q]), for the properties that
      hold whatever the rounding; there the places where the code can
      divide by zero return [option Q], [None] standing for a value that
      is not a finite number;
    - a field that holds a number or a string is a [Scalar], converted
      where the code converts it;
    - [Math.sqrt] and the [Date] constructor belong to the host and are
      parameters of the development;
    - an object used as a dictionary is an association list of its own
      properties in insertion order, enumerated as [Object.keys] does; a
      read of a key that is not an own property finds what
      [Object.prototype] holds under that key;
    - a comparator that yields [NaN] is read by the sort as yielding 0;
    - an absent property (reading it gives [undefined]) is [None]. *)

From Stdlib Require Import List Bool Arith ZArith NArith QArith Qabs Qround.
From Stdlib Require Import String Ascii Decimal DecimalN DecimalString.
From Stdlib Require Import Lia Lqa Permutation Sorted PrimFloat Uint63.
From Stdlib Require Import SpecFloat FloatOps FloatAxioms.
Import ListNotations.

Set Implicit Arguments.

(* ================================================================= *)
(** * Host primitives *)

Module JS.

Local Open Scope string_scope.

(** ** Strings *)

(** White space removed by [String.prototype.trim] (ASCII range). *)
Definition isWhiteSpace (c : ascii) : bool :=
  let n := nat_of_ascii c in
  (n =? 32)%nat || ((9 <=? n)%nat && (n <=? 13)%nat).

Fixpoint trimStart (s : string) : string :=
  match s with
  | EmptyString => EmptyString
  | String c s' => if isWhiteSpace c then trimStart s' else s
  end.

Fixpoint trimEnd (s : string) : string :=
  match s with
  | EmptyString => EmptyString
  | String c s' =>
      match trimEnd s' with
      | EmptyString => if isWhiteSpace c then EmptyString else String c EmptyString
      | t => String c t
      end
  end.

Definition trim (s : string) : string := trimEnd (trimStart s).

(** [s.split(sep)] for a one-character separator: the pieces between
    its occurrences; never the empty list. *)
Fixpoint split (sep : ascii) (s : string) : list string :=
  match s with
  | EmptyString => [EmptyString]
  | String c s' =>
      if Ascii.eqb c sep then EmptyString :: split sep s'
      else match split sep s' with
           | [] => [String c EmptyString]
           | t :: ts => String c t :: ts
           end
  end.

(** Truthiness of a string: every string but the empty one. *)
Definition truthy (s : string) : bool := negb (String.eqb s "").

(** [s.toLowerCase()] on the letters A to Z; other characters are kept. *)
Definition lowerChar (c : ascii) : ascii :=
  let n := nat_of_ascii c in
  if (65 <=? n)%nat && (n <=? 90)%nat then ascii_of_nat (n + 32) else c.

Fixpoint toLowerCase (s : string) : string :=
  match s with
  | EmptyString => EmptyString
  | String c s' => String (lowerChar c) (toLowerCase s')
  end.

(** [s.includes(word)]: [word] occurs in [s] at some position. *)
Fixpoint includes (s word : string) : bool :=
  String.prefix word s
  || match s with
     | EmptyString => false
     | String _ s' => includes s' word
     end.

(** The order of [arr.sort()] without a comparator on strings that may
    be [undefined]: by code units, [undefined] last. *)
Definition defaultPrecedes (a b : option string) : bool :=
  match a, b with
  | Some x, Some y => String.leb x y
  | Some _, None => true
  | None, Some _ => false
  | None, None => true
  end.

(** [s.padStart(2, '0')]. *)
Definition padStart2 (s : string) : string :=
  match String.length s with
  | O => "00"
  | S O => "0" ++ s
  | _ => s
  end.

(** [String(n)] for an integer. *)
Definition stringOfZ (z : Z) : string := NilZero.string_of_int (Z.to_int z).

(** ** Numbers *)

Definition Qnat (n : nat) : Q := inject_Z (Z.of_nat n).

Definition Qltb (x y : Q) : bool := negb (Qle_bool y x).

(** [a / b] where the engine does not guard the divisor. *)
Definition jsdiv (a b : Q) : option Q :=
  if Qeq_bool b 0 then None else Some (a / b)%Q.

(** ** [Array.prototype.sort]

    The sort is stable; [precedes a b] reads "the comparator does not
    put [a] after [b]", that is [cmp(a, b) <= 0]. *)
Section Sort.
Variable A : Type.
Variable precedes : A -> A -> bool.

Fixpoint insertSorted (x : A) (l : list A) : list A :=
  match l with
  | [] => [x]
  | y :: l' => if precedes x y then x :: l else y :: insertSorted x l'
  end.

Definition arraySort (l : list A) : list A := fold_right insertSorted [] l.
End Sort.

(** [arr.slice(start, end)]; a negative bound counts from the end, and
    [None] for [end] is the call with one argument. *)
Definition sliceBound (len i : Z) : Z :=
  if (i <? 0)%Z then Z.max (len + i) 0 else Z.min i len.

Definition slice (A : Type) (start : Z) (stop : option Z) (l : list A) : list A :=
  let len := Z.of_nat (List.length l) in
  let from := sliceBound len start in
  let to := match stop with Some e => sliceBound len e | None => len end in
  firstn (Z.to_nat (to - from)) (skipn (Z.to_nat from) l).

(** [x.toFixed(1)] for a finite number below 1e21: the sign of [x], then
    the nearest tenth of [|x|] (the larger one on a tie) in decimal. *)
Definition tenths (q : Q) : Z := Qfloor (Qabs q * 10 + (1 # 2)).

Definition digitsOfZ (z : Z) : string := NilZero.string_of_uint (N.to_uint (Z.to_N z)).

Definition toFixed1 (q : Q) : string :=
  let n := tenths q in
  let body := digitsOfZ (n / 10) ++ "." ++ digitsOfZ (n mod 10) in
  if Qltb q 0 then "-" ++ body else body.

(** [parseFloat]: optional white space and sign, then the longest prefix
    of the form digits [. digits]; [None] is [NaN].  Exponents and the
    literal Infinity are not read. *)
Definition isDigit (c : ascii) : bool :=
  let n := nat_of_ascii c in (48 <=? n)%nat && (n <=? 57)%nat.

Fixpoint spanDigits (s : string) : string * string :=
  match s with
  | EmptyString => (EmptyString, EmptyString)
  | String c s' =>
      if isDigit c then let (d, r) := spanDigits s' in (String c d, r)
      else (EmptyString, s)
  end.

Definition digitsValue (d : string) : Z :=
  match NilEmpty.uint_of_string d with
  | Some u => Z.of_N (N.of_uint u)
  | None => 0
  end.

Definition parseUnsigned (s : string) : option Q :=
  let (ip, r) := spanDigits s in
  let fp := match r with
            | String c r' => if Ascii.eqb c "." then fst (spanDigits r') else EmptyString
            | EmptyString => EmptyString
            end in
  if String.eqb ip "" && String.eqb fp "" then None
  else Some (inject_Z (digitsValue ip)
             + inject_Z (digitsValue fp) / inject_Z (10 ^ Z.of_nat (String.length fp)))%Q.

Definition parseFloat (s : string) : option Q :=
  match trimStart s with
  | String c t =>
      if Ascii.eqb c "-" then option_map Qopp (parseUnsigned t)
      else if Ascii.eqb c "+" then parseUnsigned t
      else parseUnsigned (String c t)
  | EmptyString => None
  end.

(** ** The numbers of the host: IEEE-754 binary64 *)

Definition specOfZ (z : Z) : spec_float :=
  match z with
  | Z0 => S754_zero false
  | Zpos p => S754_finite false p 0
  | Zneg p => S754_finite true p 0
  end.

(** The binary64 number nearest to a rational, ties to even: the number
    the host holds for a decimal numeral. *)
Definition nearest (q : Q) : float :=
  SF2Prim (SFdiv prec emax (specOfZ (Qnum q)) (specOfZ (Zpos (Qden q)))).

Definition ofZ (z : Z) : float := nearest (inject_Z z).

Definition isNaN (x : float) : bool := negb (PrimFloat.eqb x x).

(** Truthiness of a number: every number but 0 and NaN. *)
Definition truthyNumber (x : float) : bool := negb (PrimFloat.eqb x 0 || isNaN x).

(** [x || 0] on a number. *)
Definition orZero (x : float) : float := if truthyNumber x then x else 0%float.

(** How the sort reads the result [v] of a comparator called on [a] and
    [b]: [a] is not put after [b] when [v <= 0], and NaN is read as 0. *)
Definition notAfter (v : float) : bool := PrimFloat.leb v 0 || isNaN v.

(** The exact value of a finite number. *)
Definition exactValue (x : float) : option Q :=
  match Prim2SF x with
  | S754_zero _ => Some 0
  | S754_finite s m e =>
      let magnitude :=
        if (0 <=? e)%Z then inject_Z (Zpos m * 2 ^ e)
        else Zpos m # Pos.pow 2 (Z.to_pos (- e)) in
      Some (if s then - magnitude else magnitude)
  | _ => None
  end.

Definition power10 (e : Z) : Q :=
  if (0 <=? e)%Z then inject_Z (10 ^ e) else 1 / inject_Z (10 ^ (- e)).

(** *** Printing a number *)

(** The integer [n] with 10^(n-1) <= q < 10^n, for a positive [q],
    found from an estimate by the binary logarithm. *)
Fixpoint lowerExponent (fuel : nat) (q : Q) (n : Z) : Z :=
  match fuel with
  | O => n
  | S fuel' => if Qle_bool (power10 (n - 1)) q then n else lowerExponent fuel' q (n - 1)
  end.

Fixpoint raiseExponent (fuel : nat) (q : Q) (n : Z) : Z :=
  match fuel with
  | O => n
  | S fuel' => if Qle_bool (power10 n) q then raiseExponent fuel' q (n + 1) else n
  end.

Definition decimalExponent (q : Q) : Z :=
  let estimate := ((Z.log2 (Qnum q) - Z.log2 (Zpos (Qden q))) * 30103 / 100000)%Z in
  raiseExponent 4 q (lowerExponent 4 q (estimate + 1)).

(** The digits [s] of the shortest decimal [s * 10^(n - k)], [k] the
    number of digits of [s], that reads back as [x]; of two decimals of
    the same length the nearer to [x] is taken.  [q] is the exact value
    of [x]. *)
Fixpoint shortest (fuel : nat) (k n : Z) (x : float) (q : Q) : Z :=
  let unit := power10 (n - k) in
  let low := Qfloor (q / unit) in
  let readsBack (c : Z) := PrimFloat.eqb (nearest (inject_Z c * unit)) x in
  let nearerLow := Qle_bool (q - inject_Z low * unit) (inject_Z (low + 1) * unit - q) in
  match fuel with
  | O => low
  | S fuel' =>
      if readsBack low then
        if readsBack (low + 1)%Z && negb nearerLow then (low + 1)%Z else low
      else if readsBack (low + 1)%Z then (low + 1)%Z
      else shortest fuel' (k + 1) n x q
  end.

Definition zeros (n : Z) : string := String.concat "" (repeat "0" (Z.to_nat n)).

(** The text of the decimal with the digits [digits] and the exponent
    [n]: plain up to 21 digits before the point and 6 zeros after it,
    with an exponent otherwise. *)
Definition layout (digits : string) (n : Z) : string :=
  let k := Z.of_nat (String.length digits) in
  if ((k <=? n) && (n <=? 21))%Z then digits ++ zeros (n - k)
  else if ((0 <? n) && (n <=? 21))%Z then
    substring 0 (Z.to_nat n) digits ++ "."
    ++ substring (Z.to_nat n) (Z.to_nat (k - n)) digits
  else if ((-6 <? n) && (n <=? 0))%Z then "0." ++ zeros (- n) ++ digits
  else
    let e := (n - 1)%Z in
    let exponent := (if (e <? 0)%Z then "-" else "+") ++ digitsOfZ (Z.abs e) in
    match digits with
    | String d EmptyString => String d EmptyString ++ "e" ++ exponent
    | String d rest => String d EmptyString ++ "." ++ rest ++ "e" ++ exponent
    | EmptyString => EmptyString
    end.

(** [String(x)], the text the host gives a number where it meets a
    string. *)
Definition numberToString (x : float) : string :=
  match Prim2SF x with
  | S754_nan => "NaN"
  | S754_zero _ => "0"
  | S754_infinity s => if s then "-Infinity" else "Infinity"
  | S754_finite s _ _ =>
      match exactValue (PrimFloat.abs x) with
      | Some q =>
          let n := decimalExponent q in
          let body :=
            if PrimFloat.eqb (nearest (power10 n)) (PrimFloat.abs x) then layout "1" (n + 1)
            else layout (digitsOfZ (shortest 17 1 n (PrimFloat.abs x) q)) n in
          if s then "-" ++ body else body
      | None => "NaN"
      end
  end.

(** [x.toFixed(1)]: the tenth nearest to the exact value of [x], the
    larger one on a tie; a number of magnitude 1e21 or more is printed
    as [String(x)]. *)
Definition toFixed1_64 (x : float) : string :=
  match exactValue x with
  | Some q => if Qle_bool (inject_Z (10 ^ 21)) (Qabs q) then numberToString x else toFixed1 q
  | None => numberToString x
  end.

(** *** Reading a number in a string *)

(** What a string denotes as a number: nothing, an infinity, or a
    decimal (up to its sign). *)
Inductive Literal := NotNumeric | Infinite | Decimal (q : Q).

Fixpoint dropPrefix (p s : string) : option string :=
  match p, s with
  | EmptyString, _ => Some s
  | String a p', String b s' => if Ascii.eqb a b then dropPrefix p' s' else None
  | String _ _, EmptyString => None
  end.

Definition isExponentMark (c : ascii) : bool := Ascii.eqb c "e" || Ascii.eqb c "E".

(** The exponent part at the head of [s], [e] or [E], an optional sign
    and digits, with what follows it; 0 and [s] when there is none. *)
Definition exponentPart (s : string) : Z * string :=
  match s with
  | String c r =>
      if isExponentMark c then
        let (negative, r') :=
          match r with
          | String sign r1 =>
              if Ascii.eqb sign "-" then (true, r1)
              else if Ascii.eqb sign "+" then (false, r1)
              else (false, r)
          | EmptyString => (false, r)
          end in
        let (digits, rest) := spanDigits r' in
        if String.eqb digits "" then (0%Z, s)
        else ((if negative then - digitsValue digits else digitsValue digits)%Z, rest)
      else (0%Z, s)
  | EmptyString => (0%Z, s)
  end.

(** The longest prefix of [s] that is an unsigned decimal literal
    ([Infinity], digits with an optional fraction and exponent, or a
    fraction that starts with the point), and what follows it. *)
Definition unsignedLiteral (s : string) : Literal * string :=
  match dropPrefix "Infinity" s with
  | Some rest => (Infinite, rest)
  | None =>
      let (ip, r) := spanDigits s in
      let '(fp, afterFraction) :=
        match r with
        | String c r' =>
            if Ascii.eqb c "." then spanDigits r' else (EmptyString, r)
        | EmptyString => (EmptyString, r)
        end in
      if String.eqb ip "" && String.eqb fp "" then (NotNumeric, s)
      else
        let (e, rest) := exponentPart afterFraction in
        (Decimal (inject_Z (digitsValue (ip ++ fp))
                  * power10 (e - Z.of_nat (String.length fp))), rest)
  end.

Definition signed (negative : bool) (l : Literal) : float :=
  match l with
  | NotNumeric => PrimFloat.nan
  | Infinite => if negative then PrimFloat.neg_infinity else PrimFloat.infinity
  | Decimal q => if negative then PrimFloat.opp (nearest q) else nearest q
  end.

(** An optional sign, then [f] on what follows. *)
Definition withSign (A : Type) (f : bool -> string -> A) (s : string) : A :=
  match s with
  | String c t =>
      if Ascii.eqb c "-" then f true t
      else if Ascii.eqb c "+" then f false t
      else f false s
  | EmptyString => f false s
  end.

(** [parseFloat(s)]: white space is skipped, then the longest prefix
    that is a decimal literal is read; NaN when there is none. *)
Definition parseFloat64 (s : string) : float :=
  withSign (fun negative t => signed negative (fst (unsignedLiteral t))) (trimStart s).

(** Digits of a literal written in base 2, 8 or 16. *)
Definition digitOf (c : ascii) : option Z :=
  let n := Z.of_nat (nat_of_ascii c) in
  if ((48 <=? n) && (n <=? 57))%Z then Some (n - 48)%Z
  else if ((97 <=? n) && (n <=? 102))%Z then Some (n - 87)%Z
  else if ((65 <=? n) && (n <=? 70))%Z then Some (n - 55)%Z
  else None.

Fixpoint valueIn (base : Z) (acc : Z) (s : string) : option Z :=
  match s with
  | EmptyString => Some acc
  | String c s' =>
      match digitOf c with
      | Some d => if (d <? base)%Z then valueIn base (acc * base + d) s' else None
      | None => None
      end
  end.

Definition nonDecimal (s : string) : option Z :=
  match s with
  | String z (String b (String c r)) =>
      if Ascii.eqb z "0" then
        if Ascii.eqb b "x" || Ascii.eqb b "X" then valueIn 16 0 (String c r)
        else if Ascii.eqb b "o" || Ascii.eqb b "O" then valueIn 8 0 (String c r)
        else if Ascii.eqb b "b" || Ascii.eqb b "B" then valueIn 2 0 (String c r)
        else None
      else None
  | _ => None
  end.

(** [Number(s)], the conversion applied where a string meets a number:
    the whole string, white space at its ends apart, must be a numeric
    literal; the empty string is 0. *)
Definition toNumber (s : string) : float :=
  let t := trim s in
  if String.eqb t "" then 0%float
  else
    match nonDecimal t with
    | Some n => ofZ n
    | None =>
        withSign (fun negative u =>
                    match unsignedLiteral u with
                    | (l, EmptyString) => signed negative l
                    | _ => PrimFloat.nan
                    end)
                 t
    end.

(** ** Values that are a number or a string *)

Inductive Scalar := Num (x : float) | Str (s : string).

Definition truthyScalar (v : Scalar) : bool :=
  match v with Num x => truthyNumber x | Str s => truthy s end.

(** The conversions [Number(v)] and [String(v)]. *)
Definition scalarNumber (v : Scalar) : float :=
  match v with Num x => x | Str s => toNumber s end.

Definition scalarText (v : Scalar) : string :=
  match v with Num x => numberToString x | Str s => s end.

(** [a + b]: the sum of two numbers, and the concatenation of the texts
    as soon as one of the two is a string. *)
Definition jsadd (a b : Scalar) : Scalar :=
  match a, b with
  | Num x, Num y => Num (x + y)%float
  | _, _ => Str (scalarText a ++ scalarText b)
  end.

(** ** Objects used as dictionaries

    Own string-keyed properties in insertion order.  [Object.keys] and
    [Object.entries] list the keys that are array indices first, in
    ascending numeric order, then the others in insertion order. *)
Definition JSObject (V : Type) := list (string * V).

Definition getProp (V : Type) (o : JSObject V) (k : string) : option V :=
  option_map snd (find (fun kv => String.eqb (fst kv) k) o).

Fixpoint setProp (V : Type) (o : JSObject V) (k : string) (v : V) : JSObject V :=
  match o with
  | [] => [(k, v)]
  | (k', v') :: o' =>
      if String.eqb k' k then (k', v) :: o' else (k', v') :: setProp o' k v
  end.

(** The properties every object inherits from [Object.prototype]:
    functions, but for the accessor [__proto__]. *)
Definition objectPrototypeKeys : list string :=
  ["constructor"; "__defineGetter__"; "__defineSetter__"; "hasOwnProperty";
   "__lookupGetter__"; "__lookupSetter__"; "isPrototypeOf"; "propertyIsEnumerable";
   "toString"; "valueOf"; "__proto__"; "toLocaleString"].

Definition inherited (k : string) : bool := existsb (String.eqb k) objectPrototypeKeys.

Definition arrayIndex (k : string) : option N :=
  match NilZero.uint_of_string k with
  | Some d =>
      let n := N.of_uint d in
      if String.eqb (NilZero.string_of_uint (N.to_uint n)) k && (n <? 4294967295)%N
      then Some n else None
  | None => None
  end.

Definition isIndexKey (V : Type) (kv : string * V) : bool :=
  match arrayIndex (fst kv) with Some _ => true | None => false end.

Definition indexOf (V : Type) (kv : string * V) : N :=
  match arrayIndex (fst kv) with Some n => n | None => 0%N end.

Definition entries (V : Type) (o : JSObject V) : list (string * V) :=
  (arraySort (fun a b => (indexOf a <=? indexOf b)%N) (filter (@isIndexKey V) o)
   ++ filter (fun kv => negb (isIndexKey kv)) o)%list.

Definition keys (V : Type) (o : JSObject V) : list string := map fst (entries o).

(** [new Set(l)], in insertion order. *)
Fixpoint setOf (seen l : list string) : list string :=
  match l with
  | [] => []
  | x :: l' =>
      if existsb (String.eqb x) seen then setOf seen l' else x :: setOf (x :: seen) l'
  end.

(** ** Dates

    What the engine reads from [new Date(s)]; the constructor itself is a
    parameter ([None] when [isNaN(date.getTime())]). *)
Record JSDate := mkDate { getTime : Z; getFullYear : Z; getMonth : nat }.

End JS.

(* ================================================================= *)
(** * utility-functions.js *)

Module Utility.

Import JS.

(** ** calculateStatistics

    The arithmetic is abstract: [nonPositive x] is [x <= 0] (the sign
    test the sort applies to the comparator [a - b]). *)
Section Statistics.
Variable num : Type.
Variable zero : num.
Variables add sub mul div : num -> num -> num.
Variable ofNat : nat -> num.
Variable sqrt : num -> num.
Variable nonPositive : num -> bool.
Variable isNaN : num -> bool.

(** An element of the input array: a number, or a value whose [typeof]
    is not ['number']. *)
Inductive JSValue := JNumber (x : num) | JOther.

Record Statistics := mkStatistics {
  min : num;
  max : num;
  mean : num;
  median : num;
  standardDeviation : num
}.

Definition zeroStatistics : Statistics := mkStatistics zero zero zero zero zero.

Definition isNumeric (v : JSValue) : bool :=
  match v with JNumber x => negb (isNaN x) | JOther => false end.

Definition numberOf (v : JSValue) : num :=
  match v with JNumber x => x | JOther => zero end.

Definition sumOf (l : list num) : num := fold_left add l zero.

Definition calculateStatistics (data : list JSValue) : Statistics :=
  match data with
  | [] => zeroStatistics
  | _ =>
      let numericData := map numberOf (filter isNumeric data) in
      match numericData with
      | [] => zeroStatistics
      | _ =>
          let sortedData := arraySort (fun a b => nonPositive (sub a b)) numericData in
          let len := List.length sortedData in
          let min := nth 0 sortedData zero in
          let max := nth (len - 1) sortedData zero in
          let sum := sumOf sortedData in
          let mean := div sum (ofNat len) in
          let midpoint := (len / 2)%nat in
          let median :=
            if Nat.eqb (len mod 2) 0
            then div (add (nth (midpoint - 1) sortedData zero) (nth midpoint sortedData zero))
                     (ofNat 2)
            else nth midpoint sortedData zero in
          let squareDiffs := map (fun value => let diff := sub value mean in mul diff diff)
                                 sortedData in
          let avgSquareDiff := div (sumOf squareDiffs) (ofNat (List.length squareDiffs)) in
          mkStatistics min max mean median (sqrt avgSquareDiff)
      end
  end.
End Statistics.

Arguments JNumber {num} x.
Arguments JOther {num}.

(** Exact arithmetic. *)
Definition calculateStatisticsQ (sqrt : Q -> Q) : list (JSValue Q) -> Statistics Q :=
  calculateStatistics 0%Q Qplus Qminus Qmult Qdiv Qnat sqrt
                      (fun x => Qle_bool x 0) (fun _ => false).

(** IEEE-754 binary64, the arithmetic of the host. *)
Definition float_of_nat (n : nat) : float := PrimFloat.of_uint63 (Uint63.of_Z (Z.of_nat n)).

Definition calculateStatistics64 : list (JSValue float) -> Statistics float :=
  calculateStatistics 0%float PrimFloat.add PrimFloat.sub PrimFloat.mul PrimFloat.div
                      float_of_nat PrimFloat.sqrt
                      (fun x => PrimFloat.leb x 0%float)
                      (fun x => negb (PrimFloat.eqb x x)).

(** ** calculateParetoData *)

Record Item := mkItem { name : string; value : Q }.

(** An output row: the item's [name] and [value], then the annotations. *)
Record ParetoRow := mkRow {
  item : Item;
  percentage : option Q;
  cumulative : Q;
  cumulativePercentage : option Q
}.

(** [parseFloat(((part / total) * 100).toFixed(1))] *)
Definition roundedShare (part total : Q) : option Q :=
  match jsdiv part total with
  | Some ratio => parseFloat (toFixed1 (ratio * 100))
  | None => None
  end.

Fixpoint paretoRows (total cumulative : Q) (sortedData : list Item) : list ParetoRow :=
  match sortedData with
  | [] => []
  | i :: rest =>
      let cumulative' := (cumulative + value i)%Q in
      mkRow i (roundedShare (value i) total) cumulative' (roundedShare cumulative' total)
        :: paretoRows total cumulative' rest
  end.

Definition calculateParetoData (data : list Item) : list ParetoRow :=
  let sortedData := arraySort (fun a b => Qle_bool (value b - value a) 0) data in
  let total := fold_left (fun sum i => (sum + value i)%Q) sortedData 0%Q in
  paretoRows total 0%Q sortedData.

(** The same in the arithmetic of the host. *)
Module Binary64.

Record Item := mkItem { name : string; value : float }.

Record ParetoRow := mkRow {
  item : Item;
  percentage : float;
  cumulative : float;
  cumulativePercentage : float
}.

Definition roundedShare (part total : float) : float :=
  parseFloat64 (toFixed1_64 ((part / total) * 100)%float).

Fixpoint paretoRows (total cumulative : float) (sortedData : list Item) : list ParetoRow :=
  match sortedData with
  | [] => []
  | i :: rest =>
      let cumulative' := (cumulative + value i)%float in
      mkRow i (roundedShare (value i) total) cumulative' (roundedShare cumulative' total)
        :: paretoRows total cumulative' rest
  end.

Definition calculateParetoData (data : list Item) : list ParetoRow :=
  let sortedData := arraySort (fun a b => notAfter (value b - value a)%float) data in
  let total := fold_left (fun sum i => (sum + value i)%float) sortedData 0%float in
  paretoRows total 0%float sortedData.

End Binary64.

(** ** calculatePercentageChange *)

Definition calculatePercentageChange (current previous : Q) : Q :=
  if Qeq_bool previous 0 then 0
  else ((current - previous) / Qabs previous) * 100.

(** ** calculateMovingAverage

    An entry of the result is [null] or a number; with a period of 0 the
    number is 0 / 0. *)
Inductive Entry := Null | Number (x : option Q).

Definition defaultPeriod : nat := 3.

(** [sum] after the inner loop: [data[i] + data[i - 1] + ...], [period]
    terms. *)
Definition windowSum (data : list Q) (i period : nat) : Q :=
  fold_left (fun sum j => (sum + nth (i - j) data 0)%Q) (seq 0 period) 0%Q.

Definition calculateMovingAverage (data : list Q) (period : option nat) : list Entry :=
  let period := match period with Some p => p | None => defaultPeriod end in
  map (fun i =>
         if (Z.of_nat i <? Z.of_nat period - 1)%Z then Null
         else Number (jsdiv (windowSum data i period) (Qnat period)))
      (seq 0 (List.length data)).

(** ** groupBy

    [field] gives the property key under which an item is filed.  Under
    a key that [Object.prototype] holds the read [groups[key]] finds
    the inherited value, no array is created and the call of [push]
    throws a [TypeError]: the result is [None]. *)
Section GroupBy.
Variable A : Type.
Variable field : A -> string.

Definition fileUnder (groups : option (JSObject (list A))) (item : A)
  : option (JSObject (list A)) :=
  match groups with
  | Some groups =>
      let key := field item in
      match getProp groups key with
      | Some group => Some (setProp groups key (group ++ [item])%list)
      | None => if inherited key then None else Some (setProp groups key [item])
      end
  | None => None
  end.

Definition groupBy (data : list A) : option (JSObject (list A)) :=
  fold_left fileUnder data (Some []).
End GroupBy.

End Utility.

(* ================================================================= *)
(** * DataTransformer *)

Module DataTransformer.

Import JS.
Local Open Scope string_scope.

(** ** Records *)

(** The error-type collection of a record: a comma-joined string or an
    array of strings. *)
Inductive ErrorTypes :=
| ErrorString (s : string)
| ErrorArray (l : list string).

(** The cycle times are numbers in the records read from a workbook and
    strings (a number printed with one decimal) in the records that
    [test-data-transformer.js] writes. *)
Record record := mkRecord {
  batchId : string;
  source : option string;
  hasErrors : bool;
  errorCount : nat;
  errorTypes : option ErrorTypes;
  assembly_start : option string;
  assembly_finish : option string;
  packaging_start : option string;
  packaging_finish : option string;
  cycleTime : option Scalar;
  total_cycle_time_days : option Scalar;
  assembly_cycle_time : option Scalar;
  pci_wip_review_cycle_time : option Scalar;
  nn_wip_review_cycle_time : option Scalar
}.

(** Truthiness of an optional string field and of an optional number or
    string. *)
Definition present (v : option string) : bool :=
  match v with Some s => truthy s | None => false end.

Definition truthyValue (v : option Scalar) : bool :=
  match v with Some x => truthyScalar x | None => false end.

(** ** calculateRFTRate *)

Definition calculateRFTRate (records : list record) : Q :=
  match records with
  | [] => 0
  | _ =>
      let passCount := List.length (filter (fun r => negb (hasErrors r)) records) in
      (Qnat passCount / Qnat (List.length records)) * 100
  end.

(** The same in the arithmetic of the host. *)
Definition calculateRFTRate64 (records : list record) : float :=
  match records with
  | [] => 0%float
  | _ =>
      let passCount := List.length (filter (fun r => negb (hasErrors r)) records) in
      ((Utility.float_of_nat passCount / Utility.float_of_nat (List.length records))
       * 100)%float
  end.

(** ** analyzeErrorTypes *)

(** A count is a natural number or, [None], the value NaN. *)
Definition countNumber (count : option nat) : float :=
  match count with
  | Some n => Utility.float_of_nat n
  | None => PrimFloat.nan
  end.

Record ErrorEntry := mkEntry { name : string; count : option nat; percentage : float }.

(** [if (!errorCounts[type]) errorCounts[type] = 0; errorCounts[type]++]

    An own count that is 0 or NaN is reset.  Under a key of
    [Object.prototype] that is not yet an own property the read finds
    the inherited value, which is truthy: nothing is reset and the
    increment computes NaN, which is stored as an own property, but for
    [__proto__], whose setter ignores a number. *)
Definition countType (errorCounts : JSObject (option nat)) (type : string)
  : JSObject (option nat) :=
  match getProp errorCounts type with
  | Some (Some (S n)) => setProp errorCounts type (Some (S (S n)))
  | Some _ => setProp errorCounts type (Some 1%nat)
  | None =>
      if inherited type then
        if String.eqb type "__proto__" then errorCounts
        else setProp errorCounts type None
      else setProp errorCounts type (Some 1%nat)
  end.

(** The types one record contributes: the pieces of a string are trimmed,
    the elements of an array are taken as they are, and a falsy (empty)
    type is skipped. *)
Definition typesOf (r : record) : list string :=
  match errorTypes r with
  | Some (ErrorString s) => filter truthy (map trim (split "," s))
  | Some (ErrorArray l) => filter truthy l
  | None => []
  end.

Definition errorTypesTruthy (r : record) : bool :=
  match errorTypes r with
  | Some (ErrorString s) => truthy s
  | Some (ErrorArray _) => true
  | None => false
  end.

Definition defaultTopCount : nat := 3.

(** [b.count - a.count] as the sort reads it. *)
Definition byCount (a b : string * option nat) : bool :=
  match snd a, snd b with
  | Some x, Some y => (Z.of_nat y - Z.of_nat x <=? 0)%Z
  | _, _ => true
  end.

(** [sum + entry.count] *)
Definition addCount (sum : option nat) (entry : string * option nat) : option nat :=
  match sum, snd entry with
  | Some s, Some c => Some (s + c)%nat
  | _, _ => None
  end.

Definition analyzeErrorTypes (records : list record) (topCount : option nat)
  : list ErrorEntry :=
  let topCount := match topCount with Some n => n | None => defaultTopCount end in
  match records with
  | [] => []
  | _ =>
      let recordsWithErrors :=
        filter (fun r => hasErrors r && errorTypesTruthy r) records in
      let errorCounts :=
        fold_left (fun counts r => fold_left countType (typesOf r) counts)
                  recordsWithErrors [] in
      let errorArray := arraySort byCount (entries errorCounts) in
      let totalErrors := fold_left addCount errorArray (Some 0%nat) in
      let result :=
        map (fun entry =>
               mkEntry (fst entry) (snd entry)
                       ((countNumber (snd entry) / countNumber totalErrors) * 100)%float)
            errorArray in
      slice 0 (Some (Z.of_nat topCount)) result
  end.

(** ** groupRecordsByMonth *)

Definition defaultMonthCount : Z := 12.

Definition monthKey (date : JSDate) : string :=
  stringOfZ (getFullYear date) ++ "-"
  ++ padStart2 (stringOfZ (Z.of_nat (getMonth date + 1))).

(** [if (!monthGroups[k]) monthGroups[k] = []; monthGroups[k].push(r)] *)
Definition pushTo (monthGroups : JSObject (list record)) (k : string) (r : record)
  : JSObject (list record) :=
  match getProp monthGroups k with
  | Some rs => setProp monthGroups k (rs ++ [r])%list
  | None => setProp monthGroups k [r]
  end.

(** ** validateRecord *)

Record Validation := mkValidation { isValid : bool; warnings : list string }.

(** [!v || v === '' || v === 'N/A' || v === 'unknown'] *)
Definition missingOrInvalid (v : option string) : bool :=
  negb (present v)
  || match v with
     | Some s => String.eqb s "" || String.eqb s "N/A" || String.eqb s "unknown"
     | None => false
     end.

(** [/^\d{4}-\d{2}-\d{2}/.test(s)] *)
Definition isoDatePrefix (s : string) : bool :=
  match s with
  | String y1 (String y2 (String y3 (String y4 (String h1
      (String m1 (String m2 (String h2 (String d1 (String d2 _))))))))) =>
      isDigit y1 && isDigit y2 && isDigit y3 && isDigit y4 && Ascii.eqb h1 "-"
      && isDigit m1 && isDigit m2 && Ascii.eqb h2 "-" && isDigit d1 && isDigit d2
  | _ => false
  end.

Definition requiredFields (r : record) : list (string * option string) :=
  [("batchId", Some (batchId r)); ("assembly_start", assembly_start r)].

Definition validateRecord (r : record) : Validation :=
  let required :=
    flat_map (fun f : string * option string =>
                if missingOrInvalid (snd f)
                then ["Missing or invalid required field: " ++ fst f]
                else [])
             (requiredFields r) in
  let format :=
    match assembly_start r with
    | Some s =>
        if truthy s && negb (isoDatePrefix s)
        then ["Invalid assembly_start date format: " ++ s]
        else []
    | None => []
    end in
  let warnings := (required ++ format)%list in
  mkValidation (List.length warnings =? 0)%nat warnings.

(** ** transformInsightsData: the recurring issues *)

Module Pattern.
Module Occurrence.
Record t := mk { type : string; batchId : string; date : option string }.
End Occurrence.
Module Issue.
Record t := mk {
  type : string;
  occurrences : nat;
  batches : list string;
  firstSeen : option string;
  lastSeen : option string
}.
End Issue.
End Pattern.

Definition occurrencesOf (r : record) : list Pattern.Occurrence.t :=
  map (fun type => Pattern.Occurrence.mk type (batchId r) (assembly_start r)) (typesOf r).

Definition issueOf (e : string * list Pattern.Occurrence.t) : list Pattern.Issue.t :=
  let (type, occurrences) := e in
  if (3 <=? List.length occurrences)%nat then
    let dates := arraySort defaultPrecedes (map Pattern.Occurrence.date occurrences) in
    [Pattern.Issue.mk type (List.length occurrences)
                      (map Pattern.Occurrence.batchId occurrences)
                      (nth 0 dates None) (last dates None)]
  else [].

(** [None] when [groupBy] throws. *)
Definition recurringIssues (records : list record) : option (list Pattern.Issue.t) :=
  let allErrorTypes :=
    flat_map occurrencesOf (filter (fun r => hasErrors r && errorTypesTruthy r) records) in
  match Utility.groupBy Pattern.Occurrence.type allErrorTypes with
  | Some groupedErrors =>
      Some (arraySort (fun a b => (Z.of_nat (Pattern.Issue.occurrences b)
                                   - Z.of_nat (Pattern.Issue.occurrences a) <=? 0)%Z)
                      (flat_map issueOf (entries groupedErrors)))
  | None => None
  end.

(** ** The sections of the dashboard document

    The fields of each section that are computed from the records; the
    observation texts of the impact analysis are kept as their kind. *)

Module Overview.
Module Monthly.
Record t := mk {
  month : string;
  displayMonth : option string;
  rftRate : float;
  avgCycleTime : float;
  recordCount : nat
}.
End Monthly.
Module Improvement.
Record t := mk {
  recentRFT : float;
  previousRFT : float;
  rftChange : float;
  recentAvgCycleTime : float;
  previousAvgCycleTime : float;
  cycleTimeChange : float
}.
End Improvement.
Record t := mk {
  improvementSummary : option Improvement.t;
  totalRecords : nat;
  overallRFTRate : float;
  avgCycleTime : float;
  monthlyMetrics : list Monthly.t;
  topIssues : list ErrorEntry;
  rftPerformance : list (string * nat)
}.
End Overview.

Module InternalRFT.
Module Monthly.
Record t := mk { month : string; rftRate : float; recordCount : nat }.
End Monthly.
Module Process.
Record t := mk { recordCount : nat; rftRate : float; avgCycleTime : float }.
End Process.
Module Lot.
Record t := mk {
  batchId : string;
  errorCount : nat;
  date : option string;
  errorTypes : option ErrorTypes
}.
End Lot.
(** [assembly] and [packaging] are the two entries of
    [processComparison]. *)
Record t := mk {
  recordCount : nat;
  internalRFT : float;
  monthlyRFT : list Monthly.t;
  errorPareto : list Utility.Binary64.ParetoRow;
  assembly : Process.t;
  packaging : Process.t;
  problematicLots : list Lot.t
}.
End InternalRFT.

Module ExternalRFT.
Module Comparison.
Record t := mk {
  month : string;
  externalRFT : float;
  internalRFT : float;
  externalCount : nat;
  internalCount : nat
}.
End Comparison.
Module Pair.
Record t := mk { internal : float; external : float }.
End Pair.
Module Impact.
Inductive Observation := Strong | Moderate | Weak | NoPositive.
Record t := mk { correlation : float; lagTime : nat; observations : list Observation }.
End Impact.
Record t := mk {
  recordCount : nat;
  externalRFT : float;
  internalRFT : float;
  monthlyComparison : list Comparison.t;
  topIssues : list ErrorEntry;
  impactAnalysis : Impact.t
}.
End ExternalRFT.

Module Insights.
Module Duration.
Record t := mk { batchId : string; duration : Scalar }.
End Duration.
Module Outlier.
Record t := mk { batchId : string; stage : string; duration : Scalar; threshold : float }.
End Outlier.
Module StageStats.
Record t := mk {
  name : string;
  count : nat;
  avgDuration : float;
  medianDuration : float;
  minDuration : float;
  maxDuration : float;
  stdDev : float
}.
End StageStats.
(** The [bottleneckAnalysis] of the insights section, and the
    [recurringIssues] of its [patternAnalysis]. *)
Record t := mk {
  stages : list StageStats.t;
  bottleneck : string;
  outliers : list Outlier.t;
  recurringIssues : list Pattern.Issue.t
}.
End Insights.

(** The document; a section the engine leaves as the empty object is
    [None]. *)
Record TransformedData := mkData {
  overview : option Overview.t;
  internalRFT : option InternalRFT.t;
  externalRFT : option ExternalRFT.t;
  insights : option Insights.t
}.

(** How a process stage obtains its duration: a [durationField] of the
    record, or a [calculateDuration] function, whose result is a number
    or, [None], [null]. *)
Inductive StageDuration :=
| DurationField (field : record -> option Scalar)
| CalculateDuration (f : record -> option float).

Record Stage := mkStage { stageName : string; stageDuration : StageDuration }.

(** [r.cycleTime || r.total_cycle_time_days] *)
Definition cycleTimeOf (r : record) : option Scalar :=
  if truthyValue (cycleTime r) then cycleTime r else total_cycle_time_days r.

(** [.filter(val => val && !isNaN(val))] *)
Definition truthyNumbers (l : list (option Scalar)) : list Scalar :=
  flat_map (fun v => match v with
                     | Some x => if truthyScalar x && negb (isNaN (scalarNumber x))
                                 then [x] else []
                     | None => []
                     end) l.

(** [l.length > 0 ? l.reduce((sum, val) => sum + val, 0) / l.length : 0];
    the sum is a text as soon as a value is a string, and the division
    converts it back. *)
Definition averageOf (l : list Scalar) : float :=
  match l with
  | [] => 0%float
  | _ => (scalarNumber (fold_left jsadd l (Num 0)) / Utility.float_of_nat (List.length l))%float
  end.

Definition isInternal (r : record) : bool :=
  match source r with
  | Some s => String.eqb s "Process" || String.eqb s "Internal"
  | None => false
  end.

Definition isExternal (r : record) : bool :=
  match source r with
  | Some s => String.eqb s "External"
  | None => false
  end.

Definition maxLag : nat := 3.

(** [previous > 0 ? ((recent - previous) / previous) * 100 : 0] *)
Definition changeOf (recent previous : float) : float :=
  if (0 <? previous)%float then (((recent - previous) / previous) * 100)%float
  else 0%float.

Section Host.
(** [new Date(s)], [None] when the date is invalid. *)
Variable newDate : string -> option JSDate.
(** [Math.sqrt]. *)
Variable sqrt : float -> float.

Definition validDate (v : option string) : bool :=
  match v with Some s => truthy s && negb (String.eqb s "N/A") | None => false end.

Definition dateOf (v : option string) : option JSDate :=
  match v with Some s => newDate s | None => None end.

Definition groupRecordsByMonth (records : list record)
           (dateField : option (record -> option string)) (monthCount : option Z)
  : JSObject (list record) :=
  let dateField := match dateField with Some f => f | None => assembly_start end in
  let monthCount := match monthCount with Some n => n | None => defaultMonthCount end in
  let validRecords := filter (fun r => validDate (dateField r)) records in
  let monthGroups :=
    fold_left (fun groups r =>
                 match dateOf (dateField r) with
                 | Some date => pushTo groups (monthKey date) r
                 | None => groups
                 end)
              validRecords [] in
  let sortedMonths := slice (- monthCount) None (arraySort String.leb (keys monthGroups)) in
  fold_left (fun result month =>
               match getProp monthGroups month with
               | Some rs => setProp result month rs
               | None => result
               end)
            sortedMonths [].

(** Days between two date fields, when both are present and valid:
    [(finish - start) / (1000 * 60 * 60 * 24)]. *)
Definition daysBetween (start finish : option string) : option float :=
  if present start && present finish then
    match dateOf start, dateOf finish with
    | Some s, Some f => Some (ofZ (getTime f - getTime s) / ofZ 86400000)%float
    | _, _ => None
    end
  else None.

Definition recordsOf (groups : JSObject (list record)) (month : string) : list record :=
  match getProp groups month with Some rs => rs | None => [] end.

(** *** transformOverviewData *)

Definition improvementOf (monthlyGroups : JSObject (list record))
  : option Overview.Improvement.t :=
  let sortedMonthKeys := arraySort String.leb (keys monthlyGroups) in
  if (12 <=? List.length sortedMonthKeys)%nat then
    let recentMonths := slice (-6) None sortedMonthKeys in
    let previousMonths := slice (-12) (Some (-6)%Z) sortedMonthKeys in
    let recentRecords := flat_map (recordsOf monthlyGroups) recentMonths in
    let previousRecords := flat_map (recordsOf monthlyGroups) previousMonths in
    let recentRFT := calculateRFTRate64 recentRecords in
    let previousRFT := calculateRFTRate64 previousRecords in
    let recentAvg := averageOf (truthyNumbers (map cycleTimeOf recentRecords)) in
    let previousAvg := averageOf (truthyNumbers (map cycleTimeOf previousRecords)) in
    Some (Overview.Improvement.mk
            recentRFT previousRFT (changeOf recentRFT previousRFT)
            recentAvg previousAvg (changeOf recentAvg previousAvg))
  else None.

Definition transformOverviewData (records : list record) : option Overview.t :=
  match records with
  | [] => None
  | _ =>
      let overallRFTRate := calculateRFTRate64 records in
      let avgCycleTime := averageOf (truthyNumbers (map cycleTimeOf records)) in
      let monthlyGroups :=
        groupRecordsByMonth records (Some assembly_start) (Some 12%Z) in
      let monthlyMetrics :=
        map (fun e : string * list record =>
               let (month, monthRecords) := e in
               Overview.Monthly.mk
                 month (nth_error (split "-" month) 1)
                 (calculateRFTRate64 monthRecords)
                 (averageOf (truthyNumbers (map cycleTimeOf monthRecords)))
                 (List.length monthRecords))
            (entries monthlyGroups) in
      let topIssues := analyzeErrorTypes records (Some 3%nat) in
      Some (Overview.mk
              (improvementOf monthlyGroups)
              (List.length records) overallRFTRate avgCycleTime monthlyMetrics topIssues
              [("Pass", List.length (filter (fun r => negb (hasErrors r)) records));
               ("Fail", List.length (filter hasErrors records))])
  end.

(** *** transformInternalRFTData *)

Definition transformInternalRFTData (records : list record) : option InternalRFT.t :=
  match records with
  | [] => None
  | _ =>
      let internalRecords := filter isInternal records in
      match internalRecords with
      | [] => None
      | _ =>
          let internalRFT := calculateRFTRate64 internalRecords in
          let monthlyGroups := groupRecordsByMonth internalRecords None None in
          let monthlyRFT :=
            map (fun e : string * list record =>
                   let (month, monthRecords) := e in
                   InternalRFT.Monthly.mk month (calculateRFTRate64 monthRecords)
                                          (List.length monthRecords))
                (entries monthlyGroups) in
          let internalErrorsPareto :=
            Utility.Binary64.calculateParetoData
              (map (fun item => Utility.Binary64.mkItem (name item) (countNumber (count item)))
                   (analyzeErrorTypes (filter hasErrors internalRecords) (Some 10%nat))) in
          let assemblyRecords :=
            filter (fun r => present (assembly_start r) && present (assembly_finish r))
                   internalRecords in
          let packagingRecords :=
            filter (fun r => present (packaging_start r) && present (packaging_finish r))
                   internalRecords in
          let assemblyCycleTimes :=
            truthyNumbers (map assembly_cycle_time assemblyRecords) in
          let packagingCycleTimes :=
            flat_map (fun r =>
                        match daysBetween (packaging_start r) (packaging_finish r) with
                        | Some d => [Num d]
                        | None => []
                        end)
                     packagingRecords in
          let problematicLots :=
            slice 0 (Some 5%Z)
              (arraySort
                 (fun a b => (Z.of_nat (InternalRFT.Lot.errorCount b)
                              - Z.of_nat (InternalRFT.Lot.errorCount a) <=? 0)%Z)
                 (map (fun r => InternalRFT.Lot.mk (batchId r) (errorCount r)
                                                   (assembly_start r) (errorTypes r))
                      (filter (fun r => hasErrors r && (1 <? errorCount r)%nat)
                              internalRecords))) in
          Some (InternalRFT.mk
                  (List.length internalRecords) internalRFT monthlyRFT
                  internalErrorsPareto
                  (InternalRFT.Process.mk (List.length assemblyRecords)
                                          (calculateRFTRate64 assemblyRecords)
                                          (averageOf assemblyCycleTimes))
                  (InternalRFT.Process.mk (List.length packagingRecords)
                                          (calculateRFTRate64 packagingRecords)
                                          (averageOf packagingCycleTimes))
                  problematicLots)
      end
  end.

(** *** transformExternalRFTData *)

Definition monthlyComparisonOf (externalMonthlyGroups internalMonthlyGroups
                                : JSObject (list record))
  : list ExternalRFT.Comparison.t :=
  let allMonths :=
    setOf [] (keys externalMonthlyGroups ++ keys internalMonthlyGroups)%list in
  map (fun month =>
         let externalMonth := recordsOf externalMonthlyGroups month in
         let internalMonth := recordsOf internalMonthlyGroups month in
         ExternalRFT.Comparison.mk month
           (calculateRFTRate64 externalMonth) (calculateRFTRate64 internalMonth)
           (List.length externalMonth) (List.length internalMonth))
      (arraySort String.leb allMonths).

(** The pairs collected for one lag: month [index] of the external
    series against month [index - lag] of the internal one. *)
Definition lagPairs (monthlyComparison : list ExternalRFT.Comparison.t) (lag : nat)
  : list ExternalRFT.Pair.t :=
  flat_map
    (fun e : nat * ExternalRFT.Comparison.t =>
       let (index, item) := e in
       if (lag <=? index)%nat then
         match nth_error monthlyComparison (index - lag) with
         | Some internalMonth =>
             if (0 <? ExternalRFT.Comparison.externalRFT item)%float
                && (0 <? ExternalRFT.Comparison.internalRFT internalMonth)%float
             then [ExternalRFT.Pair.mk
                     (ExternalRFT.Comparison.internalRFT internalMonth)
                     (ExternalRFT.Comparison.externalRFT item)]
             else []
         | None => []
         end
       else [])
    (combine (seq 0 (List.length monthlyComparison)) monthlyComparison).

(** The Pearson correlation of the collected pairs, each operation
    rounded as the host rounds it. *)
Definition correlationOf (pairs : list ExternalRFT.Pair.t) : float :=
  let internalValues := map ExternalRFT.Pair.internal pairs in
  let externalValues := map ExternalRFT.Pair.external pairs in
  let internalMean :=
    (fold_left PrimFloat.add internalValues 0
     / Utility.float_of_nat (List.length internalValues))%float in
  let externalMean :=
    (fold_left PrimFloat.add externalValues 0
     / Utility.float_of_nat (List.length externalValues))%float in
  let sums :=
    fold_left
      (fun (acc : float * float * float) (p : float * float) =>
         let '(numerator, denomInternalSum, denomExternalSum) := acc in
         let internalDiff := (fst p - internalMean)%float in
         let externalDiff := (snd p - externalMean)%float in
         (numerator + internalDiff * externalDiff,
          denomInternalSum + internalDiff * internalDiff,
          denomExternalSum + externalDiff * externalDiff)%float)
      (combine internalValues externalValues) (0, 0, 0)%float in
  let '(numerator, denomInternalSum, denomExternalSum) := sums in
  let denominator := sqrt (denomInternalSum * denomExternalSum)%float in
  if (denominator =? 0)%float then 0%float else (numerator / denominator)%float.

(** One turn of the loop over the lags, on (bestCorrelation, bestLag). *)
Definition lagStep (monthlyComparison : list ExternalRFT.Comparison.t)
           (best : float * nat) (lag : nat) : float * nat :=
  let pairs := lagPairs monthlyComparison lag in
  if (3 <=? List.length pairs)%nat then
    let correlation := correlationOf pairs in
    if (PrimFloat.abs (fst best) <? PrimFloat.abs correlation)%float
    then (correlation, lag) else best
  else best.

Definition lagCorrelation (monthlyComparison : list ExternalRFT.Comparison.t)
  : float * nat :=
  fold_left (lagStep monthlyComparison) (seq 0 (S maxLag)) (0%float, 0%nat).

Definition observationOf (bestCorrelation : float) : ExternalRFT.Impact.Observation :=
  if (7 / 10 <? bestCorrelation)%float then ExternalRFT.Impact.Strong
  else if (4 / 10 <? bestCorrelation)%float then ExternalRFT.Impact.Moderate
  else if (0 <? bestCorrelation)%float then ExternalRFT.Impact.Weak
  else ExternalRFT.Impact.NoPositive.

Definition transformExternalRFTData (records : list record) : option ExternalRFT.t :=
  match records with
  | [] => None
  | _ =>
      let externalRecords := filter isExternal records in
      match externalRecords with
      | [] => None
      | _ =>
          let externalRFT := calculateRFTRate64 externalRecords in
          let internalRecords := filter isInternal records in
          let externalMonthlyGroups := groupRecordsByMonth externalRecords None None in
          let internalMonthlyGroups := groupRecordsByMonth internalRecords None None in
          let monthlyComparison :=
            monthlyComparisonOf externalMonthlyGroups internalMonthlyGroups in
          let externalTopIssues :=
            analyzeErrorTypes (filter hasErrors externalRecords) (Some 5%nat) in
          let (bestCorrelation, bestLag) := lagCorrelation monthlyComparison in
          Some (ExternalRFT.mk
                  (List.length externalRecords) externalRFT
                  (calculateRFTRate64 internalRecords)
                  monthlyComparison externalTopIssues
                  (ExternalRFT.Impact.mk bestCorrelation bestLag
                                         [observationOf bestCorrelation]))
      end
  end.

(** *** transformInsightsData: the bottleneck analysis *)

Definition processStages : list Stage :=
  [ mkStage "Assembly" (DurationField assembly_cycle_time);
    mkStage "PCI Review" (DurationField pci_wip_review_cycle_time);
    mkStage "NN Review" (DurationField nn_wip_review_cycle_time);
    mkStage "Packaging"
            (CalculateDuration
               (fun r => daysBetween (packaging_start r) (packaging_finish r))) ].

(** The duration of a record in a stage; [None] is [null]. *)
Definition durationIn (stage : Stage) (r : record) : option Scalar :=
  match stageDuration stage with
  | DurationField field => if truthyValue (field r) then field r else None
  | CalculateDuration f => option_map Num (f r)
  end.

(** [if (duration !== null && !isNaN(duration)) durations.push(...)] *)
Definition durationsOf (stage : Stage) (records : list record)
  : list Insights.Duration.t :=
  flat_map (fun r =>
              match durationIn stage r with
              | Some d => if isNaN (scalarNumber d) then []
                          else [Insights.Duration.mk (batchId r) d]
              | None => []
              end)
           records.

(** A duration as [calculateStatistics] meets it: a value whose [typeof]
    is ['number'], or not. *)
Definition valueOf (d : Insights.Duration.t) : Utility.JSValue float :=
  match Insights.Duration.duration d with
  | Num x => Utility.JNumber x
  | Str _ => Utility.JOther
  end.

Definition statsOf (durations : list Insights.Duration.t) : Utility.Statistics float :=
  Utility.calculateStatistics
    0%float PrimFloat.add PrimFloat.sub PrimFloat.mul PrimFloat.div
    Utility.float_of_nat sqrt (fun x => PrimFloat.leb x 0) isNaN
    (map valueOf durations).

Definition outlierThreshold (durations : list Insights.Duration.t) : float :=
  let stats := statsOf durations in
  (Utility.mean stats + 2 * Utility.standardDeviation stats)%float.

(** [d.duration >= outlierThreshold], the duration converted to a
    number. *)
Definition reaches (threshold : float) (d : Insights.Duration.t) : bool :=
  (threshold <=? scalarNumber (Insights.Duration.duration d))%float.

Definition stageOutliers (stage : Stage) (records : list record)
  : list Insights.Outlier.t :=
  let durations := durationsOf stage records in
  match durations with
  | [] => []
  | _ =>
      let threshold := outlierThreshold durations in
      map (fun d => Insights.Outlier.mk (Insights.Duration.batchId d) (stageName stage)
                                        (Insights.Duration.duration d) threshold)
          (filter (reaches threshold) durations)
  end.

Definition stageStats (stage : Stage) (records : list record)
  : list Insights.StageStats.t :=
  let durations := durationsOf stage records in
  match durations with
  | [] => []
  | _ =>
      let stats := statsOf durations in
      [Insights.StageStats.mk (stageName stage) (List.length durations)
         (Utility.mean stats) (Utility.median stats) (Utility.min stats)
         (Utility.max stats) (Utility.standardDeviation stats)]
  end.

(** The section is set at the end of a [try] block: where
    [recurringIssues] throws, it stays the empty object. *)
Definition transformInsightsData (records : list record) : option Insights.t :=
  match records with
  | [] => None
  | _ =>
      let stages :=
        arraySort (fun a b => notAfter (Insights.StageStats.avgDuration b
                                        - Insights.StageStats.avgDuration a)%float)
                  (flat_map (fun stage => stageStats stage records) processStages) in
      let outliers :=
        arraySort (fun a b => notAfter (scalarNumber (Insights.Outlier.duration b)
                                        - scalarNumber (Insights.Outlier.duration a))%float)
                  (flat_map (fun stage => stageOutliers stage records) processStages) in
      match recurringIssues records with
      | Some issues =>
          Some (Insights.mk stages
                            (match stages with
                             | first :: _ => Insights.StageStats.name first
                             | [] => ""
                             end)
                            outliers issues)
      | None => None
      end
  end.

(** *** transformData *)

Definition transformData (rawRecords : list record) : TransformedData :=
  mkData (transformOverviewData rawRecords)
         (transformInternalRFTData rawRecords)
         (transformExternalRFTData rawRecords)
         (transformInsightsData rawRecords).

End Host.

End DataTransformer.

(* ================================================================= *)
(** * ExcelProcessor: the overview of the assembled document *)

Module ExcelProcessor.

Import JS.
Local Open Scope string_scope.

(** What [generateOverview] reads from a processed workbook: the [lot]
    of each of its records and the rate string of its summary
    ([rftRate], [resolutionRate] or [completionRate]). *)
Record SheetData := mkSheet { lots : list string; rate : string }.

(** The rate string of a summary:
    [total > 0 ? (part / total * 100).toFixed(1) : '0.0']. *)
Definition rateString (part total : nat) : string :=
  if (0 <? total)%nat
  then toFixed1_64 (Utility.float_of_nat part / Utility.float_of_nat total * 100)%float
  else "0.0".

(** The weighted sum, over an abstract arithmetic ([w4], [w3] and
    [hundred] are the literals 0.4, 0.3 and 100). *)
Section Weights.
Variable num : Type.
Variables add sub mul : num -> num -> num.
Variables w4 w3 hundred : num.

Definition weightedRFT (internalRFT externalRFT commercialRFT : num) : num :=
  add (add (mul internalRFT w4) (mul (sub hundred externalRFT) w3))
      (mul commercialRFT w3).
End Weights.

(** In exact arithmetic, and in the arithmetic of the host, where 0.4
    and 0.3 are the binary64 numbers nearest to them. *)
Definition weightedRFTQ : Q -> Q -> Q -> Q :=
  weightedRFT Qplus Qminus Qmult (4 # 10) (3 # 10) 100.

Definition weightedRFT64 : float -> float -> float -> float :=
  weightedRFT PrimFloat.add PrimFloat.sub PrimFloat.mul
              (4 / 10)%float (3 / 10)%float 100%float.

Record Stats := mkStats { totalRecords : nat; totalLots : nat; overallRFTRate : string }.

(** The [stats] of [generateOverview]. *)
Definition generateOverview (internalRftData externalRftData commercialProcessData : SheetData)
  : Stats :=
  let totalRecords :=
    (List.length (lots internalRftData) + List.length (lots externalRftData)
     + List.length (lots commercialProcessData))%nat in
  let lotSet :=
    setOf [] (filter truthy (lots internalRftData) ++ filter truthy (lots externalRftData)
              ++ filter truthy (lots commercialProcessData))%list in
  let internalRFT := orZero (parseFloat64 (rate internalRftData)) in
  let externalRFT := orZero (100 - parseFloat64 (rate externalRftData))%float in
  let commercialRFT := orZero (parseFloat64 (rate commercialProcessData)) in
  let overallRFT := toFixed1_64 (weightedRFT64 internalRFT externalRFT commercialRFT) in
  mkStats totalRecords (List.length lotSet) overallRFT.

(** ** The analyses of the processed records

    What the analyses read from a record of a processed workbook; a
    missing cell is the empty string. *)
Record Processed := mkProcessed {
  date : string;
  errorType : string;
  issueType : string;
  feedback : string
}.

Inductive Trend := Up | Down | Flat.
Inductive Sentiment := Positive | Negative | Neutral.

Module Tally.
Record t := mk { count : nat; records : list Processed }.
End Tally.
Module FormError.
Record t := mk { name : string; errors : nat; trend : Trend }.
End FormError.
Module Comment.
Record t := mk { name : string; count : nat; sentiment : Sentiment }.
End Comment.

(** One turn of the grouping loop of [analyzeFormErrors] and of
    [analyzeCustomerComments], which differ in the field [key].  Under a
    key that [Object.prototype] holds no group is created and the call
    of [records.push] throws a [TypeError]: the result is [None]. *)
Definition tally (key : Processed -> string) (groups : option (JSObject Tally.t))
           (r : Processed) : option (JSObject Tally.t) :=
  match groups with
  | Some groups =>
      if truthy (key r) then
        match getProp groups (key r) with
        | Some g => Some (setProp groups (key r)
                                  (Tally.mk (S (Tally.count g)) (Tally.records g ++ [r])%list))
        | None => if inherited (key r) then None
                  else Some (setProp groups (key r) (Tally.mk 1 [r]))
        end
      else Some groups
  | None => None
  end.

(** *** determineSentiment *)

Definition positiveWords : list string :=
  ["good"; "great"; "excellent"; "satisfied"; "happy"; "resolved"; "thank"].

Definition negativeWords : list string :=
  ["bad"; "poor"; "disappointed"; "issue"; "problem"; "delay"; "fail"].

Definition mentions (words : list string) (text : string) : bool :=
  existsb (includes text) words.

Definition countSentiment (counts : nat * nat) (r : Processed) : nat * nat :=
  if truthy (feedback r) then
    let text := toLowerCase (feedback r) in
    let positive := mentions positiveWords text in
    let negative := mentions negativeWords text in
    (if positive && negb negative then S (fst counts) else fst counts,
     if negative && negb positive then S (snd counts) else snd counts)
  else counts.

Definition determineSentiment (records : list Processed) : Sentiment :=
  let (positiveCount, negativeCount) := fold_left countSentiment records (0, 0)%nat in
  if Qltb (Qnat negativeCount * (15 # 10)) (Qnat positiveCount) then Positive
  else if (positiveCount <? negativeCount)%nat then Negative
  else Neutral.

Definition analyzeCustomerComments (records : list Processed) : option (list Comment.t) :=
  match fold_left (tally issueType) records (Some []) with
  | Some issueGroups =>
      Some (arraySort
              (fun a b => (Z.of_nat (Comment.count b) - Z.of_nat (Comment.count a) <=? 0)%Z)
              (flat_map (fun name =>
                           match getProp issueGroups name with
                           | Some g => [Comment.mk name (Tally.count g)
                                                   (determineSentiment (Tally.records g))]
                           | None => []
                           end)
                        (keys issueGroups)))
  | None => None
  end.

Section Dates.
(** [new Date(s)], [None] when the date is invalid. *)
Variable newDate : string -> option JSDate.

(** *** determineTrend

    The comparator [new Date(a.date) - new Date(b.date)]; a result that
    is [NaN] is read as 0 by the sort. *)
Definition byDate (a b : Processed) : bool :=
  match newDate (date a), newDate (date b) with
  | Some x, Some y => (getTime x - getTime y <=? 0)%Z
  | _, _ => true
  end.

Definition determineTrend (records : list Processed) : Trend :=
  if (List.length records <? 2)%nat then Flat
  else
    let sortedRecords := arraySort byDate records in
    let half := (List.length sortedRecords / 2)%nat in
    let firstHalf := slice 0 (Some (Z.of_nat half)) sortedRecords in
    let secondHalf := slice (Z.of_nat half) None sortedRecords in
    let firstHalfCount := List.length firstHalf in
    let secondHalfCount := List.length secondHalf in
    if Qltb (Qnat firstHalfCount * (12 # 10)) (Qnat secondHalfCount) then Up
    else if Qltb (Qnat secondHalfCount) (Qnat firstHalfCount * (8 # 10)) then Down
    else Flat.

(** *** analyzeFormErrors *)

Definition analyzeFormErrors (records : list Processed) : option (list FormError.t) :=
  match fold_left (tally errorType) records (Some []) with
  | Some errorGroups =>
      Some (arraySort
              (fun a b => (Z.of_nat (FormError.errors b) - Z.of_nat (FormError.errors a)
                           <=? 0)%Z)
              (flat_map (fun name =>
                           match getProp errorGroups name with
                           | Some g => [FormError.mk name (Tally.count g)
                                                     (determineTrend (Tally.records g))]
                           | None => []
                           end)
                        (keys errorGroups)))
  | None => None
  end.
End Dates.

End ExcelProcessor.

(* ================================================================= *)
(** * A host for evaluation

    Stand-ins for the host functions, used where the engine is run on a
    concrete input: for exact arithmetic a square root that is exact on
    the squares of rationals, for binary64 the correctly rounded square
    root, and the date constructor on the ISO form [YYYY-MM-DD] read in
    UTC. *)

Module Host.

Import JS.
Local Open Scope string_scope.

Definition sqrt (q : Q) : Q := Z.sqrt (Qnum q * Zpos (Qden q)) # Qden q.

Definition sqrt64 : float -> float := PrimFloat.sqrt.

(** Days since 1970-01-01 of a civil date. *)
Definition daysFromCivil (y m d : Z) : Z :=
  let y' := if (m <=? 2)%Z then (y - 1)%Z else y in
  let era := (y' / 400)%Z in
  let yoe := (y' - era * 400)%Z in
  let mp := ((m + 9) mod 12)%Z in
  let doy := ((153 * mp + 2) / 5 + d - 1)%Z in
  let doe := (yoe * 365 + yoe / 4 - yoe / 100 + doy)%Z in
  (era * 146097 + doe - 719468)%Z.

Definition numberOf (s : string) : option Z :=
  option_map (fun u => Z.of_N (N.of_uint u)) (NilZero.uint_of_string s).

Definition newDate (s : string) : option JSDate :=
  match split "-" s with
  | [y; m; d] =>
      match numberOf y, numberOf m, numberOf d with
      | Some y', Some m', Some d' =>
          if ((1 <=? m') && (m' <=? 12) && (1 <=? d') && (d' <=? 31))%Z
          then Some (mkDate (daysFromCivil y' m' d' * 86400000) y' (Z.to_nat (m' - 1)))
          else None
      | _, _, _ => None
      end
  | _ => None
  end.

End Host.

(* ================================================================= *)
(** * Notions used to state the properties *)

Module Reading.

Import JS DataTransformer.

(** The comparator of [calculateStatistics], [(a, b) => a - b], as the
    sort reads it. *)
Definition ascending (a b : Q) : bool := Qle_bool (a - b) 0.

(** Whether a pair of months enters the series: both rates positive. *)
Definition bothPositive (e : ExternalRFT.Comparison.t * ExternalRFT.Comparison.t) : bool :=
  (0 <? ExternalRFT.Comparison.externalRFT (fst e))%float
  && (0 <? ExternalRFT.Comparison.internalRFT (snd e))%float.

Definition pairOf (e : ExternalRFT.Comparison.t * ExternalRFT.Comparison.t)
  : ExternalRFT.Pair.t :=
  ExternalRFT.Pair.mk (ExternalRFT.Comparison.internalRFT (snd e))
                      (ExternalRFT.Comparison.externalRFT (fst e)).

(** The months a lag puts side by side: each month from the [lag]-th on,
    with the month [lag] places before it. *)
Definition aligned (monthlyComparison : list ExternalRFT.Comparison.t) (lag : nat)
  : list (ExternalRFT.Comparison.t * ExternalRFT.Comparison.t) :=
  combine (skipn lag monthlyComparison) monthlyComparison.






(** The error types the ranking counts: those of the records whose
    error flag is set. *)
Definition flaggedTypes (records : list record) : list string :=
  flat_map typesOf (filter hasErrors records).

(** A text without the character [c]. *)
Fixpoint without (c : ascii) (s : string) : bool :=
  match s with
  | EmptyString => true
  | String c' s' => negb (Ascii.eqb c' c) && without c s'
  end.



(** The month key of a record for a date field, when the field holds a
    value that is truthy, is not 'N/A' and parses to a valid date. *)
Definition bucketOf (newDate : string -> option JSDate)
           (dateField : record -> option string) (r : record) : option string :=
  if validDate (dateField r)
  then option_map monthKey (dateOf newDate (dateField r))
  else None.

Definition inBucket (newDate : string -> option JSDate)
           (dateField : record -> option string) (k : string) (r : record) : bool :=
  match bucketOf newDate dateField r with
  | Some k' => String.eqb k' k
  | None => false
  end.

(** What the month groups hold once the records [done] have been
    visited: one entry per month key met, with the records of that
    month in the order met. *)
Definition grouped (newDate : string -> option JSDate)
           (dateField : record -> option string)
           (o : JSObject (list record)) (done : list record) : Prop :=
  NoDup (map fst o)
  /\ forall k rs, In (k, rs) o
                  <-> rs = filter (inBucket newDate dateField k) done /\ rs <> [].

(** *** The order of binary64 numbers *)

(** A number that is not NaN is placed by its sign class, then its
    exponent, then its mantissa. *)
Definition placeOf (x : spec_float) : option (Z * Z * Z) :=
  match x with
  | S754_nan => None
  | S754_infinity s => Some (if s then (-2) else 2, 0, 0)%Z
  | S754_zero _ => Some (0, 0, 0)%Z
  | S754_finite s m e => Some (if s then (-1, - e, Zneg m) else (1, e, Zpos m))%Z
  end.

Definition place (x : float) : option (Z * Z * Z) := placeOf (Prim2SF x).

Definition before (a b : Z * Z * Z) : Prop :=
  (fst (fst a) < fst (fst b)
   \/ (fst (fst a) = fst (fst b)
       /\ (snd (fst a) < snd (fst b)
           \/ (snd (fst a) = snd (fst b) /\ snd a < snd b))))%Z.

(** A lag is eligible when it yields at least three pairs; its score is
    the correlation of its pairs, and its strength the absolute value
    of the score. *)
Definition eligible (monthlyComparison : list ExternalRFT.Comparison.t) (lag : nat) : Prop :=
  (3 <= List.length (lagPairs monthlyComparison lag))%nat.

Definition score (sqrt : float -> float) (monthlyComparison : list ExternalRFT.Comparison.t)
           (lag : nat) : float :=
  correlationOf sqrt (lagPairs monthlyComparison lag).

Definition strength (sqrt : float -> float)
           (monthlyComparison : list ExternalRFT.Comparison.t) (lag : nat) : float :=
  PrimFloat.abs (score sqrt monthlyComparison lag).

(** [x > y] on numbers: false as soon as one of them is NaN. *)
Definition exceeds (x y : float) : bool := (y <? x)%float.

(** What holds of (bestCorrelation, bestLag) once the lags below [n]
    have been examined: the strength of no eligible lag below [n]
    exceeds the one of the pair, and either the pair is still the
    initial (0, 0) and no eligible lag below [n] has a strength that
    exceeds 0, or bestLag is an eligible lag, bestCorrelation is its
    score, its strength exceeds 0 and that of every eligible lag before
    it whose score is a number. *)
Definition examined (sqrt : float -> float)
           (monthlyComparison : list ExternalRFT.Comparison.t)
           (n : nat) (best : float * nat) : Prop :=
  (forall k, (k < n)%nat -> eligible monthlyComparison k ->
             exceeds (strength sqrt monthlyComparison k) (PrimFloat.abs (fst best)) = false)
  /\ ((best = (0%float, 0%nat)
       /\ forall k, (k < n)%nat -> eligible monthlyComparison k ->
                    exceeds (strength sqrt monthlyComparison k) 0 = false)
      \/ ((snd best < n)%nat /\ eligible monthlyComparison (snd best)
          /\ fst best = score sqrt monthlyComparison (snd best)
          /\ exceeds (PrimFloat.abs (fst best)) 0 = true
          /\ forall k, (k < snd best)%nat -> eligible monthlyComparison k ->
                       exceeds (PrimFloat.abs (fst best)) (strength sqrt monthlyComparison k)
                       = true
                       \/ isNaN (score sqrt monthlyComparison k) = true)).

(** The lags for which a correlation is computed, with that correlation. *)
Definition candidateLags (sqrt : float -> float)
           (monthlyComparison : list ExternalRFT.Comparison.t) : list (float * nat) :=
  map (fun lag => (correlationOf sqrt (lagPairs monthlyComparison lag), lag))
      (filter (fun lag => (3 <=? List.length (lagPairs monthlyComparison lag))%nat)
              (seq 0 (S maxLag))).

(** The selection as the specification words it: among the lags that
    yield at least three pairs, the one whose correlation is largest in
    absolute value, the first of them on a tie; correlation 0 and lag 0
    when no lag yields three pairs. *)
Definition statedSelection (sqrt : float -> float)
           (monthlyComparison : list ExternalRFT.Comparison.t) : float * nat :=
  match candidateLags sqrt monthlyComparison with
  | [] => (0%float, 0%nat)
  | first :: rest =>
      fold_left (fun best c => if exceeds (PrimFloat.abs (fst c)) (PrimFloat.abs (fst best))
                               then c else best)
                rest first
  end.





(** Whether an item is filed under the key [k], for a grouping whose
    key may be absent. *)
Definition filedUnder (A : Type) (key : A -> option string) (k : string) (x : A) : bool :=
  match key x with
  | Some k' => String.eqb k' k
  | None => false
  end.

(** What a grouping holds once the items [done] have been visited: one
    entry per key met, with the items of that key in the order met. *)
Definition filed (A : Type) (key : A -> option string)
           (o : JSObject (list A)) (done : list A) : Prop :=
  NoDup (map fst o)
  /\ forall k g, In (k, g) o <-> g = filter (filedUnder key k) done /\ g <> [].

(** One turn of a grouping loop: the item is appended to the group of
    its key, which is created when the key is new. *)
Definition fileAt (A : Type) (key : A -> option string)
           (o : JSObject (list A)) (x : A) : JSObject (list A) :=
  match key x with
  | Some k =>
      match getProp o k with
      | Some g => setProp o k (g ++ [x])%list
      | None => setProp o k [x]
      end
  | None => o
  end.

(** The key under which the analyses of the workbook records file a
    record: the value of the field, when it is not empty. *)
Definition filledKey (key : ExcelProcessor.Processed -> string)
           (r : ExcelProcessor.Processed) : option string :=
  if truthy (key r) then Some (key r) else None.

(** The records of each group of a tally. *)
Definition recordsOfTally (o : JSObject ExcelProcessor.Tally.t)
  : JSObject (list ExcelProcessor.Processed) :=
  map (fun kv => (fst kv, ExcelProcessor.Tally.records (snd kv))) o.

(** The trend reported for a group of [n] records. *)
Definition trendOfCount (n : nat) : ExcelProcessor.Trend :=
  if existsb (Nat.eqb n) [3; 5; 7; 9]%nat then ExcelProcessor.Up else ExcelProcessor.Flat.

(** Feedback that counts as positive: it is not empty and, in lower
    case, mentions a positive word and no negative word; and the same
    with the two lists of words exchanged. *)
Definition positiveOnly (r : ExcelProcessor.Processed) : bool :=
  truthy (ExcelProcessor.feedback r)
  && (ExcelProcessor.mentions ExcelProcessor.positiveWords
                              (toLowerCase (ExcelProcessor.feedback r))
      && negb (ExcelProcessor.mentions ExcelProcessor.negativeWords
                                       (toLowerCase (ExcelProcessor.feedback r)))).

Definition negativeOnly (r : ExcelProcessor.Processed) : bool :=
  truthy (ExcelProcessor.feedback r)
  && (ExcelProcessor.mentions ExcelProcessor.negativeWords
                              (toLowerCase (ExcelProcessor.feedback r))
      && negb (ExcelProcessor.mentions ExcelProcessor.positiveWords
                                       (toLowerCase (ExcelProcessor.feedback r)))).

End Reading.

(* ================================================================= *)
(** * Sample inputs *)

Module Samples.

Import JS DataTransformer.
Local Open Scope string_scope.

(** A record that carries an identifier, a source tag, an error flag,
    its error types and an assembly date, and nothing else. *)
Definition lot (id : string) (src : option string) (failed : bool)
           (types : option ErrorTypes) (start : option string) : record :=
  mkRecord id src failed (if failed then 1 else 0) types start
           None None None None None None None None.

(** One tenth as the host holds it: the binary64 number nearest to 0.1. *)
Definition tenth : float := (1 / 10)%float.

(** A record that only carries an identifier and an assembly cycle time. *)
Definition timed (id : string) (days : Scalar) : record :=
  mkRecord id None false 0 None None None None None None None (Some days) None None.



Definition slowRun : list record :=
  [timed "B1" (Num 6); timed "B2" (Num 6); timed "B3" (Num 59); timed "B4" (Num 6);
   timed "B5" (Num 6)].

Definition assemblyStage : Stage := mkStage "Assembly" (DurationField assembly_cycle_time).

(** Four months of lots.  Internal lots pass in January, February and
    March and fail in April; of the external lots the one of January
    fails, one of two passes in February and in April, and the one of
    March passes. *)
Definition laggedRun : list record :=
  [ lot "I1" (Some "Internal") false None (Some "2024-01-05");
    lot "E1" (Some "External") true None (Some "2024-01-06");
    lot "I2" (Some "Process") false None (Some "2024-02-05");
    lot "E2" (Some "External") true None (Some "2024-02-06");
    lot "E3" (Some "External") false None (Some "2024-02-07");
    lot "I3" (Some "Internal") false None (Some "2024-03-05");
    lot "E4" (Some "External") false None (Some "2024-03-06");
    lot "I4" (Some "Internal") true None (Some "2024-04-05");
    lot "E5" (Some "External") true None (Some "2024-04-06");
    lot "E6" (Some "External") false None (Some "2024-04-07") ].

(** The monthly comparison of [laggedRun]. *)
Definition comparison : list ExternalRFT.Comparison.t :=
  [ ExternalRFT.Comparison.mk "2024-01" 0 100 1 1;
    ExternalRFT.Comparison.mk "2024-02" 50 100 2 1;
    ExternalRFT.Comparison.mk "2024-03" 100 100 1 1;
    ExternalRFT.Comparison.mk "2024-04" 50 0 2 1 ].

(** The lots of one source in one month: [passing] lots that pass and
    [failing] lots that fail. *)
Definition lotsOf (src day : string) (passing failing : nat) : list record :=
  (repeat (lot "P" (Some src) false None (Some day)) passing
   ++ repeat (lot "F" (Some src) true None (Some day)) failing)%list.

(** Four months of six internal and six external lots: 1, 2, 3 and 4
    of the internal lots pass, and 4, 3, 2 and 1 of the external ones. *)
Definition opposedRun : list record :=
  (lotsOf "Internal" "2024-01-05" 1 5 ++ lotsOf "External" "2024-01-06" 4 2
   ++ lotsOf "Internal" "2024-02-05" 2 4 ++ lotsOf "External" "2024-02-06" 3 3
   ++ lotsOf "Internal" "2024-03-05" 3 3 ++ lotsOf "External" "2024-03-06" 2 4
   ++ lotsOf "Internal" "2024-04-05" 4 2 ++ lotsOf "External" "2024-04-06" 1 5)%list.

(** The monthly comparison of [opposedRun]. *)
Definition opposed : list ExternalRFT.Comparison.t :=
  map (fun e : string * nat * nat =>
         let '(month, external, internal) := e in
         ExternalRFT.Comparison.mk
           month
           (Utility.float_of_nat external / 6 * 100)%float
           (Utility.float_of_nat internal / 6 * 100)%float 6 6)
      [("2024-01", 4, 1); ("2024-02", 3, 2); ("2024-03", 2, 3); ("2024-04", 1, 4)]%nat.







Definition inheritedOnce : list record :=
  [ lot "B1" None true (Some (ErrorArray ["constructor"])) None ].


(** Three months in which the internal and the external rates agree. *)
Definition agreeing : list ExternalRFT.Comparison.t :=
  [ ExternalRFT.Comparison.mk "2024-01" 50 50 2 2;
    ExternalRFT.Comparison.mk "2024-02" 100 100 2 2;
    ExternalRFT.Comparison.mk "2024-03" 50 50 2 2 ].

(** Three internal lots, one of them failing. *)
Definition internalRun : list record :=
  [ lot "B1" (Some "Internal") false None (Some "2024-01-05");
    lot "B2" (Some "Process") true (Some (ErrorArray ["Missing Signature"]))
        (Some "2024-01-09");
    lot "B3" (Some "Internal") false None (Some "2024-02-01") ].

(** A passing record without a source tag. *)
Definition untagged : record := lot "B10000" None false None (Some "2023-01-01").

(** Four internal lots that failed, with 2, 5, 1 and 3 errors. *)
Definition failing (id : string) (errors : nat) : record :=
  mkRecord id (Some "Internal") true errors None (Some "2024-01-05")
           None None None None None None None None.

Definition offenders : list record :=
  [failing "B1" 2; failing "B2" 5; failing "B3" 1; failing "B4" 3].

(** Three flagged records, each of which mentions the error type A. *)
Definition recurring : list record :=
  [ lot "B1" None true (Some (ErrorString "A, B")) (Some "2024-01-05");
    lot "B2" None true (Some (ErrorArray ["A"])) (Some "2024-02-05");
    lot "B3" None true (Some (ErrorString "A")) None ].

(** Records of the internal workbook: three signature errors and one
    date error. *)
Definition formError (day type : string) : ExcelProcessor.Processed :=
  ExcelProcessor.mkProcessed day type "" "".

Definition formErrors : list ExcelProcessor.Processed :=
  [ formError "2024-01-05" "Signature"; formError "2024-01-03" "Signature";
    formError "2024-01-04" "Signature"; formError "2024-01-02" "Date" ].

(** Records of the external workbook: two complaints about labeling,
    one praising and one blaming, one about a delivery, and one without
    an issue type. *)
Definition complaint (type text : string) : ExcelProcessor.Processed :=
  ExcelProcessor.mkProcessed "2024-01-05" "" type text.

Definition complaints : list ExcelProcessor.Processed :=
  [ complaint "Labeling" "Great service, thank you"; complaint "Labeling" "BAD label";
    complaint "Delivery" "There was a delay"; complaint "" "fine" ].

End Samples.

(* ================================================================= *)
(** * Properties *)

Unset Implicit Arguments.

Import JS Reading DataTransformer ExcelProcessor Utility.
Local Open Scope string_scope.

(** ** Facts on the host primitives *)

Section SortFacts.
Variable A : Type.
Variable precedes : A -> A -> bool.

Lemma insertSorted_perm (x : A) (l : list A) :
  Permutation (insertSorted precedes x l) (x :: l).
Proof.
  induction l as [|y l IH]; simpl.
  - apply Permutation_refl.
  - destruct (precedes x y).
    + apply Permutation_refl.
    + eapply perm_trans; [apply perm_skip, IH | apply perm_swap].
Qed.

Lemma arraySort_perm (l : list A) : Permutation (arraySort precedes l) l.
Proof.
  induction l as [|x l IH]; simpl.
  - constructor.
  - eapply perm_trans; [apply insertSorted_perm | apply perm_skip, IH].
Qed.

Lemma arraySort_length (l : list A) : List.length (arraySort precedes l) = List.length l.
Proof. apply Permutation_length, arraySort_perm. Qed.


Lemma arraySort_nil_inv (l : list A) : arraySort precedes l = [] -> l = [].
Proof.
  intro H. apply Permutation_nil. rewrite <- H. apply arraySort_perm.
Qed.

(** With a total and transitive comparator the result is sorted. *)
Hypothesis precedes_total : forall a b, precedes a b = false -> precedes b a = true.
Hypothesis precedes_trans :
  forall a b c, precedes a b = true -> precedes b c = true -> precedes a c = true.

Let R (a b : A) : Prop := precedes a b = true.

Lemma insertSorted_sorted (x : A) (l : list A) :
  StronglySorted R l -> StronglySorted R (insertSorted precedes x l).
Proof.
  induction l as [|y l IH]; simpl; intro Hs.
  - repeat constructor.
  - inversion Hs as [|? ? Hs' Hall]; subst.
    destruct (precedes x y) eqn:Hxy.
    + constructor; [assumption|].
      constructor; [exact Hxy|].
      rewrite Forall_forall in *. intros z Hz.
      eapply precedes_trans; [exact Hxy | apply Hall, Hz].
    + constructor; [apply IH, Hs'|].
      rewrite Forall_forall in *. intros z Hz.
      apply (Permutation_in _ (insertSorted_perm x l)) in Hz.
      destruct Hz as [<- | Hz]; [apply precedes_total, Hxy | apply Hall, Hz].
Qed.

Lemma arraySort_sorted (l : list A) : StronglySorted R (arraySort precedes l).
Proof.
  induction l as [|x l IH]; simpl.
  - constructor.
  - apply insertSorted_sorted, IH.
Qed.
End SortFacts.


(** Comparisons of rationals. *)
Lemma Qltb_true (x y : Q) : Qltb x y = true <-> x < y.
Proof.
  unfold Qltb. rewrite negb_true_iff.
  split; intro H.
  - apply Qnot_le_lt. intro Hle. apply Qle_bool_iff in Hle. congruence.
  - destruct (Qle_bool y x) eqn:E; [|reflexivity].
    apply Qle_bool_iff in E. exfalso. apply (Qlt_not_le _ _ H E).
Qed.


Lemma Qnat_nonneg (n : nat) : 0 <= Qnat n.
Proof. unfold Qnat, Qle. simpl. lia. Qed.

Lemma Qnat_pos (n : nat) : (0 < n)%nat -> 0 < Qnat n.
Proof. unfold Qnat, Qlt. simpl. lia. Qed.

Lemma Qnat_le (m n : nat) : (m <= n)%nat -> Qnat m <= Qnat n.
Proof. unfold Qnat, Qle. simpl. lia. Qed.

(** A share of a whole, as a percentage, lies between 0 and 100. *)
Lemma share_range (p n : nat) :
  (p <= n)%nat -> (0 < n)%nat -> 0 <= Qnat p / Qnat n * 100 <= 100.
Proof.
  intros Hpn Hn.
  pose proof (Qnat_pos _ Hn) as Hn'.
  pose proof (Qnat_nonneg p) as Hp.
  pose proof (Qnat_le _ _ Hpn) as Hle.
  assert (H0 : 0 <= Qnat p / Qnat n).
  { apply Qle_shift_div_l; [exact Hn'|]. lra. }
  assert (H1 : Qnat p / Qnat n <= 1).
  { apply Qle_shift_div_r; [exact Hn'|]. lra. }
  split; lra.
Qed.

(** ** The order of binary64 numbers *)

Lemma SFcompare_place (x y : spec_float) :
  match SFcompare x y with
  | Some Lt => exists a b, placeOf x = Some a /\ placeOf y = Some b /\ before a b
  | Some Eq => exists a, placeOf x = Some a /\ placeOf y = Some a
  | Some Gt => exists a b, placeOf x = Some a /\ placeOf y = Some b /\ before b a
  | None => placeOf x = None \/ placeOf y = None
  end.
Proof.
  destruct x as [sx | sx | | sx mx ex], y as [sy | sy | | sy my ey];
    try destruct sx; try destruct sy; cbn [SFcompare placeOf];
    try change (PosDef.Pos.compare_cont Eq mx my) with (Pos.compare mx my);
    try (destruct (Z.compare_spec ex ey) as [E | L | G];
         [subst ey; destruct (Pos.compare_spec mx my) as [E | L | G];
                    [subst my | |] | |]);
    cbn [CompOpp];
    first [ left; reflexivity
          | right; reflexivity
          | eexists; split; reflexivity
          | do 2 eexists; split; [reflexivity |]; split; [reflexivity |];
            unfold before; cbn; lia ].
Qed.

Lemma before_irrefl (a : Z * Z * Z) : ~ before a a.
Proof. unfold before. lia. Qed.

Lemma before_asym (a b : Z * Z * Z) : before a b -> ~ before b a.
Proof. unfold before. lia. Qed.

Lemma before_trans (a b c : Z * Z * Z) : before a b -> before b c -> before a c.
Proof. unfold before. lia. Qed.

Lemma before_total (a b : Z * Z * Z) : before a b \/ a = b \/ before b a.
Proof.
  destruct a as [[a1 a2] a3], b as [[b1 b2] b3]. unfold before. cbn.
  destruct (Z.lt_trichotomy a1 b1) as [H | [H | H]]; [lia | | lia].
  destruct (Z.lt_trichotomy a2 b2) as [H2 | [H2 | H2]]; [lia | | lia].
  destruct (Z.lt_trichotomy a3 b3) as [H3 | [H3 | H3]]; [lia | | lia].
  right. left. subst. reflexivity.
Qed.

Lemma ltb_place (x y : float) :
  PrimFloat.ltb x y = true
  <-> exists a b, place x = Some a /\ place y = Some b /\ before a b.
Proof.
  rewrite ltb_spec. unfold SFltb, place.
  pose proof (SFcompare_place (Prim2SF x) (Prim2SF y)) as H.
  destruct (SFcompare (Prim2SF x) (Prim2SF y)) as [[| |] |].
  - split; [discriminate |]. intros (a & b & Ha & Hb & L).
    destruct H as (c & Hc1 & Hc2). rewrite Hc1 in Ha. rewrite Hc2 in Hb.
    injection Ha as <-. injection Hb as <-. exfalso. apply (before_irrefl _ L).
  - split; [intros _; exact H | reflexivity].
  - split; [discriminate |]. intros (a & b & Ha & Hb & L).
    destruct H as (c & d & Hc & Hd & G). rewrite Hc in Ha. rewrite Hd in Hb.
    injection Ha as <-. injection Hb as <-. exfalso. apply (before_asym _ _ L G).
  - split; [discriminate |]. intros (a & b & Ha & Hb & _).
    destruct H as [H | H]; congruence.
Qed.


Lemma eqb_place (x y : float) :
  PrimFloat.eqb x y = true <-> exists a, place x = Some a /\ place y = Some a.
Proof.
  rewrite eqb_spec. unfold SFeqb, place.
  pose proof (SFcompare_place (Prim2SF x) (Prim2SF y)) as H.
  destruct (SFcompare (Prim2SF x) (Prim2SF y)) as [[| |] |].
  - split; [intros _; exact H | reflexivity].
  - split; [discriminate |]. intros (c & Hc1 & Hc2).
    destruct H as (a & b & Ha & Hb & L). rewrite Hc1 in Ha. rewrite Hc2 in Hb.
    injection Ha as <-. injection Hb as <-. exfalso. apply (before_irrefl _ L).
  - split; [discriminate |]. intros (c & Hc1 & Hc2).
    destruct H as (a & b & Ha & Hb & L). rewrite Hc1 in Ha. rewrite Hc2 in Hb.
    injection Ha as <-. injection Hb as <-. exfalso. apply (before_irrefl _ L).
  - split; [discriminate |]. intros (c & Hc1 & Hc2).
    destruct H as [H | H]; congruence.
Qed.

Lemma isNaN_place (x : float) : isNaN x = true <-> place x = None.
Proof.
  unfold isNaN. rewrite negb_true_iff. split.
  - intros H. destruct (place x) as [a |] eqn:E; [| reflexivity].
    assert (PrimFloat.eqb x x = true) by (apply eqb_place; exists a; auto). congruence.
  - intros H. destruct (PrimFloat.eqb x x) eqn:E; [| reflexivity].
    apply eqb_place in E as (a & Ha & _). congruence.
Qed.

Lemma isNaN_abs (x : float) : isNaN (PrimFloat.abs x) = isNaN x.
Proof.
  assert (H : place (PrimFloat.abs x) = None <-> place x = None).
  { unfold place. rewrite abs_spec. destruct (Prim2SF x) as [s | s | | s m e]; cbn;
      try destruct s; split; congruence. }
  destruct (isNaN x) eqn:E.
  - apply isNaN_place. apply H. apply isNaN_place. exact E.
  - destruct (isNaN (PrimFloat.abs x)) eqn:E'; [| reflexivity].
    apply isNaN_place, H, isNaN_place in E'. congruence.
Qed.

Lemma ltb_above (a b c : float) :
  PrimFloat.ltb a b = true -> PrimFloat.ltb a c = false -> PrimFloat.ltb b c = false.
Proof.
  intros Hab Hac. destruct (PrimFloat.ltb b c) eqn:Hbc; [| reflexivity].
  apply ltb_place in Hab as (pa & pb & Ha & Hb & L1).
  apply ltb_place in Hbc as (pb' & pc & Hb' & Hc & L2).
  assert (pb' = pb) by congruence. subst pb'.
  assert (PrimFloat.ltb a c = true)
    by (apply ltb_place; exists pa, pc; repeat split; auto; eapply before_trans; eauto).
  congruence.
Qed.

Lemma ltb_below (b s t : float) :
  PrimFloat.ltb b s = false -> PrimFloat.ltb b t = true -> isNaN s = false ->
  PrimFloat.ltb s t = true.
Proof.
  intros Hbs Hbt Hs.
  apply ltb_place in Hbt as (pb & pt & Hb & Ht & L).
  destruct (place s) as [ps |] eqn:Es;
    [| apply isNaN_place in Es; congruence].
  apply ltb_place. exists ps, pt. split; [exact Es |]. split; [exact Ht |].
  destruct (before_total pb ps) as [H | [H | H]].
  - assert (PrimFloat.ltb b s = true) by (apply ltb_place; exists pb, ps; auto). congruence.
  - subst ps. exact L.
  - eapply before_trans; eauto.
Qed.

Lemma ltb_irrefl (x : float) : PrimFloat.ltb x x = false.
Proof.
  destruct (PrimFloat.ltb x x) eqn:E; [| reflexivity].
  apply ltb_place in E as (a & b & Ha & Hb & L).
  assert (a = b) by congruence. subst. exfalso. apply (before_irrefl _ L).
Qed.




Lemma eqb_not_ltb (x y : float) : PrimFloat.eqb x y = true -> PrimFloat.ltb y x = false.
Proof.
  intros H. apply eqb_place in H as (a & Ha & Hb).
  destruct (PrimFloat.ltb y x) eqn:E; [| reflexivity].
  apply ltb_place in E as (b' & a' & Hb' & Ha' & L).
  assert (a' = a) by congruence. assert (b' = a) by congruence. subst.
  exfalso. apply (before_irrefl _ L).
Qed.

Lemma abs_not_below_zero (x : float) : PrimFloat.ltb (PrimFloat.abs x) 0 = false.
Proof.
  destruct (PrimFloat.ltb (PrimFloat.abs x) 0) eqn:E; [| reflexivity].
  apply ltb_place in E as (a & b & Ha & Hb & L).
  unfold place in Ha, Hb. rewrite abs_spec in Ha.
  assert (b = (0, 0, 0)%Z) by (vm_compute in Hb; congruence). subst b.
  destruct (Prim2SF x) as [s | s | | s m e]; cbn in Ha; try discriminate;
    injection Ha as <-; unfold before in L; cbn in L; lia.
Qed.

Lemma eqb_not_below (x y : float) : PrimFloat.eqb x y = true -> PrimFloat.ltb x y = false.
Proof.
  intros H. apply eqb_place in H as (a & Ha & Hb).
  destruct (PrimFloat.ltb x y) eqn:E; [| reflexivity].
  apply ltb_place in E as (a' & b' & Ha' & Hb' & L).
  assert (a' = a) by congruence. assert (b' = a) by congruence. subst.
  exfalso. apply (before_irrefl _ L).
Qed.

(** ** The RFT rate *)


Lemma calculateRFTRate_value (records : list record) :
  records <> [] ->
  calculateRFTRate records
  = Qnat (List.length (filter (fun r => negb (hasErrors r)) records))
    / Qnat (List.length records) * 100.
Proof. destruct records; [congruence | reflexivity]. Qed.

Lemma all_passing_count (records : list record) :
  (forall r, In r records -> hasErrors r = false) ->
  List.length (filter (fun r => negb (hasErrors r)) records) = List.length records.
Proof.
  induction records as [|r rs IH]; intro Hall; [reflexivity|].
  simpl. rewrite (Hall r (or_introl eq_refl)). simpl. f_equal.
  apply IH. intros x Hx. apply Hall. now right.
Qed.

(** C6. The RFT rate is 0 on the empty list and
    passingCount / totalCount * 100 otherwise, a record passing when its
    error flag is not set; it always lies between 0 and 100, and it is
    100 on a non-empty list whose records all pass. *)
Theorem calculateRFTRate_spec (records : list record) :
  let passingCount := List.length (filter (fun r => negb (hasErrors r)) records) in
  let totalCount := List.length records in
  (records = [] -> calculateRFTRate records = 0) /\
  (records <> [] ->
   calculateRFTRate records = Qnat passingCount / Qnat totalCount * 100) /\
  0 <= calculateRFTRate records <= 100 /\
  (records <> [] -> (forall r, In r records -> hasErrors r = false) ->
   calculateRFTRate records == 100).
Proof.
  intros passingCount totalCount.
  assert (Hle : (passingCount <= totalCount)%nat) by apply filter_length_le.
  split; [intros ->; reflexivity|].
  split; [apply calculateRFTRate_value|].
  split.
  - destruct records as [|r rs].
    + simpl. unfold Qle; simpl; lia.
    + rewrite calculateRFTRate_value by discriminate.
      apply share_range; [exact Hle | simpl; lia].
  - intros Hrec Hall. rewrite (calculateRFTRate_value _ Hrec).
    rewrite (all_passing_count _ Hall).
    assert (Hq : 0 < Qnat (List.length records)).
    { apply Qnat_pos. destruct records; [congruence | simpl; lia]. }
    field. intro Hz. rewrite Hz in Hq. apply (Qlt_irrefl _ Hq).
Qed.

Lemma calculateRFTRate_spec_witness :
  [Samples.untagged; Samples.untagged] <> []
  /\ calculateRFTRate [Samples.untagged; Samples.untagged] == 100.
Proof.
  split; [discriminate|].
  apply (proj2 (proj2 (proj2 (calculateRFTRate_spec [Samples.untagged; Samples.untagged])))).
  - discriminate.
  - intros r [<- | [<- | []]]; reflexivity.
Defined.

(** ** Rounding to one decimal *)



(** ** The overall RFT of the assembled overview *)




(** The sum is the one of the host, not the exact one: with a
    commercial rate of 54.5 the exact sum, 76.35, would be printed as
    76.4, and the overview prints 76.3, the host's sum being just
    below 76.35.  The rate strings are rounded in the same way: 41 of
    80 is 51.25 exactly, and is printed as 51.2. *)
Example overallRFT_is_the_sum_of_the_host :
  overallRFTRate (generateOverview (mkSheet [] "90.0") (mkSheet [] "80.0") (mkSheet [] "54.5"))
  = "76.3"
  /\ toFixed1 (weightedRFTQ 90 20 (545 # 10)) = "76.4"
  /\ rateString 41 80 = "51.2"
  /\ toFixed1 (Qnat 41 / Qnat 80 * 100) = "51.3".
Proof. repeat split; vm_compute; reflexivity. Qed.

(** A rate that cannot be read counts as 0. *)
Example overallRFT_of_unread_rates :
  overallRFTRate (generateOverview (mkSheet [] "n/a") (mkSheet [] "") (mkSheet [] "95.0"))
  = "58.5".
Proof. vm_compute. reflexivity. Qed.

(** ** Records without a source tag *)

Lemma untagged_not_internal (records : list record) :
  (forall r, In r records -> source r = None) -> filter isInternal records = [].
Proof.
  induction records as [|r rs IH]; intro H; [reflexivity|].
  simpl. unfold isInternal at 1. rewrite (H r (or_introl eq_refl)).
  apply IH. intros x Hx. apply H. now right.
Qed.

Lemma untagged_not_external (records : list record) :
  (forall r, In r records -> source r = None) -> filter isExternal records = [].
Proof.
  induction records as [|r rs IH]; intro H; [reflexivity|].
  simpl. unfold isExternal at 1. rewrite (H r (or_introl eq_refl)).
  apply IH. intros x Hx. apply H. now right.
Qed.

(** C1, as stated, fails on one record without a source tag: the two
    sections stay empty objects, so that reading their [recordCount]
    gives [undefined] and not 0. *)
Lemma absent_source_recordCount_undefined :
  option_map InternalRFT.recordCount
             (internalRFT (transformData Host.newDate Host.sqrt64 [Samples.untagged]))
  <> Some 0%nat
  /\ option_map ExternalRFT.recordCount
                (externalRFT (transformData Host.newDate Host.sqrt64 [Samples.untagged]))
     <> Some 0%nat.
Proof. split; vm_compute; discriminate. Qed.

(** C1, amended. When no record has a source tag, the engine leaves the
    internalRFT and externalRFT sections as they were (empty objects,
    without a [recordCount]); the transformation is total, and on a
    non-empty input [overview.totalRecords] is the number of records. *)
Theorem absent_source_sections
        (newDate : string -> option JSDate) (sqrt : float -> float) (records : list record) :
  (forall r, In r records -> source r = None) ->
  internalRFT (transformData newDate sqrt records) = None
  /\ externalRFT (transformData newDate sqrt records) = None
  /\ (records <> [] ->
      option_map Overview.totalRecords (overview (transformData newDate sqrt records))
      = Some (List.length records)).
Proof.
  intro H. unfold transformData. simpl.
  split; [|split].
  - unfold transformInternalRFTData. rewrite (untagged_not_internal _ H).
    now destruct records.
  - unfold transformExternalRFTData. rewrite (untagged_not_external _ H).
    now destruct records.
  - intro Hne. destruct records; [congruence | reflexivity].
Qed.

Lemma absent_source_sections_witness :
  internalRFT (transformData Host.newDate Host.sqrt64 [Samples.untagged; Samples.untagged])
  = None
  /\ externalRFT (transformData Host.newDate Host.sqrt64 [Samples.untagged; Samples.untagged])
     = None
  /\ ([Samples.untagged; Samples.untagged] <> [] ->
      option_map Overview.totalRecords
                 (overview (transformData Host.newDate Host.sqrt64
                                          [Samples.untagged; Samples.untagged]))
      = Some 2%nat).
Proof.
  apply (absent_source_sections Host.newDate Host.sqrt64
                                [Samples.untagged; Samples.untagged]).
  intros r [<- | [<- | []]]; reflexivity.
Defined.

(** ** Sums of rationals *)

Lemma fold_Qplus_acc (l : list Q) (a : Q) :
  fold_left Qplus l a == a + fold_left Qplus l 0.
Proof.
  revert a. induction l as [|x l IH]; intro a; simpl.
  - ring.
  - rewrite (IH (a + x)), (IH (0 + x)). ring.
Qed.

Lemma fold_Qplus_cons (x : Q) (l : list Q) :
  fold_left Qplus (x :: l) 0 == x + fold_left Qplus l 0.
Proof. simpl. rewrite fold_Qplus_acc. ring. Qed.


Lemma fold_Qplus_bounds (lo hi : Q) (l : list Q) :
  (forall x, In x l -> lo <= x <= hi) ->
  Qnat (List.length l) * lo <= fold_left Qplus l 0 <= Qnat (List.length l) * hi.
Proof.
  induction l as [|x l IH]; intro H.
  - change (Qnat (List.length (@nil Q))) with 0. simpl. split; lra.
  - rewrite fold_Qplus_cons.
    assert (Hn : Qnat (List.length (x :: l)) == 1 + Qnat (List.length l)).
    { unfold Qnat. simpl List.length. rewrite Nat2Z.inj_succ, <- Z.add_1_l.
      rewrite inject_Z_plus. reflexivity. }
    rewrite Hn.
    destruct (H x (or_introl eq_refl)) as [Hlo Hhi].
    destruct IH as [IHlo IHhi]; [intros y Hy; apply H; now right|].
    split; lra.
Qed.

(** ** calculateStatistics in exact arithmetic *)


Lemma ascending_le (a b : Q) : ascending a b = true <-> a <= b.
Proof.
  unfold ascending. rewrite Qle_bool_iff. split; intro H; lra.
Qed.

Lemma ascending_total (a b : Q) : ascending a b = false -> ascending b a = true.
Proof.
  intro H. apply ascending_le.
  destruct (Qlt_le_dec b a) as [Hlt | Hle].
  - apply Qlt_le_weak, Hlt.
  - apply ascending_le in Hle. congruence.
Qed.

Lemma ascending_trans (a b c : Q) :
  ascending a b = true -> ascending b c = true -> ascending a c = true.
Proof.
  rewrite !ascending_le. intros H1 H2. lra.
Qed.

Lemma sorted_ascending (l : list Q) : StronglySorted Qle (arraySort ascending l).
Proof.
  pose proof (arraySort_sorted _ ascending ascending_total ascending_trans l) as H.
  induction H as [|x s Hs IH Hall]; constructor; [exact IH|].
  rewrite Forall_forall in *. intros y Hy. apply ascending_le, Hall, Hy.
Qed.

Lemma sorted_nth_le (s : list Q) (i j : nat) :
  StronglySorted Qle s -> (i <= j)%nat -> (j < List.length s)%nat ->
  nth i s 0 <= nth j s 0.
Proof.
  intro Hs. revert i j. induction Hs as [|x s Hs IH Hall]; intros i j Hij Hj.
  - simpl in Hj. lia.
  - destruct j as [|j].
    + assert (i = 0%nat) by lia. subst. simpl. lra.
    + destruct i as [|i].
      * simpl. rewrite Forall_forall in Hall. apply Hall, nth_In. simpl in Hj. lia.
      * simpl. apply IH; simpl in Hj; lia.
Qed.

(** The statistics of a non-empty array of numbers, field by field. *)
Lemma calculateStatisticsQ_numbers (sqrt : Q -> Q) (l : list Q) :
  l <> [] ->
  let s := arraySort ascending l in
  let n := List.length s in
  let m := fold_left Qplus s 0 / Qnat n in
  calculateStatisticsQ sqrt (map JNumber l)
  = mkStatistics
      (nth 0 s 0) (nth (n - 1) s 0) m
      (if Nat.eqb (n mod 2) 0
       then (nth (n / 2 - 1) s 0 + nth (n / 2) s 0) / Qnat 2
       else nth (n / 2) s 0)
      (sqrt (fold_left Qplus (map (fun v => (v - m) * (v - m)) s) 0
             / Qnat (List.length (map (fun v => (v - m) * (v - m)) s)))).
Proof.
  intros Hne s n m.
  unfold calculateStatisticsQ, calculateStatistics.
  assert (Hf : map (numberOf 0) (filter (isNumeric (fun _ : Q => false)) (map JNumber l)) = l).
  { clear. induction l as [|x l IH]; [reflexivity|]. simpl. now rewrite IH. }
  rewrite Hf.
  destruct l as [|x l']; [congruence|]. reflexivity.
Qed.

Lemma sorted_bounds (s : list Q) (x : Q) :
  StronglySorted Qle s -> In x s ->
  nth 0 s 0 <= x <= nth (List.length s - 1) s 0.
Proof.
  intros Hs Hx. destruct (In_nth s x 0 Hx) as (i & Hi & <-).
  split; apply sorted_nth_le; try assumption; lia.
Qed.

Lemma mean_bounds (s : list Q) (lo hi : Q) :
  s <> [] -> (forall x, In x s -> lo <= x <= hi) ->
  lo <= fold_left Qplus s 0 / Qnat (List.length s) <= hi.
Proof.
  intros Hne H.
  assert (Hn : 0 < Qnat (List.length s)).
  { apply Qnat_pos. destruct s; [congruence | simpl; lia]. }
  destruct (fold_Qplus_bounds lo hi s H) as [Hlo Hhi].
  split.
  - apply Qle_shift_div_l; [exact Hn|]. lra.
  - apply Qle_shift_div_r; [exact Hn|]. lra.
Qed.

(** C7, as stated, fails on the numbers of the host: the mean of three
    copies of 0.1 is 0.10000000000000002, above the maximum 0.1. *)
Lemma calculateStatistics_binary64_mean_above_max :
  PrimFloat.leb
    (mean (calculateStatistics64
             [JNumber Samples.tenth; JNumber Samples.tenth; JNumber Samples.tenth]))
    (max (calculateStatistics64
            [JNumber Samples.tenth; JNumber Samples.tenth; JNumber Samples.tenth]))
  = false.
Proof. vm_compute. reflexivity. Qed.

(** C7, amended. The statistics of the empty list are all 0.  For a
    non-empty array of numbers the median is taken on a sorted copy (the
    middle element, or the average of the two middle elements when the
    length is even), and when the sums and quotients are exact (numbers
    read as rationals) it lies between the minimum and the maximum, as
    does the mean. *)
Theorem calculateStatistics_exact (sqrt : Q -> Q) (l : list Q) :
  calculateStatisticsQ sqrt [] = zeroStatistics 0
  /\ (l <> [] ->
      let st := calculateStatisticsQ sqrt (map JNumber l) in
      let s := arraySort ascending l in
      let n := List.length s in
      Permutation s l
      /\ StronglySorted Qle s
      /\ min st <= median st <= max st
      /\ min st <= mean st <= max st
      /\ median st
         = if Nat.eqb (n mod 2) 0
           then (nth (n / 2 - 1) s 0 + nth (n / 2) s 0) / 2
           else nth (n / 2) s 0).
Proof.
  split; [reflexivity|].
  intros Hne st s n.
  assert (Hperm : Permutation s l) by apply arraySort_perm.
  assert (Hsorted : StronglySorted Qle s) by apply sorted_ascending.
  assert (Hs : s <> []).
  { intro E. apply Hne. apply (arraySort_nil_inv _ _ _ E). }
  assert (Hn : (0 < n)%nat).
  { subst n. destruct s; [congruence | simpl; lia]. }
  assert (Hst := calculateStatisticsQ_numbers sqrt l Hne).
  cbv zeta in Hst. fold s in Hst. fold n in Hst. fold st in Hst.
  split; [exact Hperm|]. split; [exact Hsorted|].
  rewrite Hst. cbn [min max mean median].
  assert (Hall : forall x, In x s -> nth 0 s 0 <= x <= nth (n - 1) s 0)
    by (intros x Hx; now apply sorted_bounds).
  assert (Hdiv : (n / 2 < n)%nat) by (apply Nat.div_lt; lia).
  split; [|split; [|reflexivity]].
  - destruct (Nat.eqb (n mod 2) 0) eqn:Ev.
    + assert (I1 : (n / 2 - 1 < List.length s)%nat) by (change (List.length s) with n; lia).
      assert (I2 : (n / 2 < List.length s)%nat) by (change (List.length s) with n; lia).
      assert (H1 := Hall _ (nth_In s 0 I1)).
      assert (H2 := Hall _ (nth_In s 0 I2)).
      change (Qnat 2) with 2.
      split.
      * apply Qle_shift_div_l; [reflexivity|]. lra.
      * apply Qle_shift_div_r; [reflexivity|]. lra.
    + apply Hall, nth_In. change (List.length s) with n. lia.
  - apply mean_bounds; assumption.
Qed.

Lemma calculateStatistics_exact_witness :
  Host.sqrt 4 == 2
  /\ [1; 1; 6; 1; 1] <> []
  /\ min (calculateStatisticsQ Host.sqrt (map JNumber [1; 1; 6; 1; 1]))
     <= mean (calculateStatisticsQ Host.sqrt (map JNumber [1; 1; 6; 1; 1]))
     <= max (calculateStatisticsQ Host.sqrt (map JNumber [1; 1; 6; 1; 1])).
Proof.
  split; [reflexivity|]. split; [discriminate|].
  apply (calculateStatistics_exact Host.sqrt [1; 1; 6; 1; 1]). discriminate.
Defined.

(** ** The error types of the flagged records *)




(** ** groupBy *)




(** ** Outliers of a process stage *)












(** The threshold is the one the host computes: of five lots assembled
    in 6, 6, 59, 6 and 6 days the mean is 16.6 and the standard
    deviation 21.2, so that the threshold is 59 exactly, and the lot of
    59 days would be flagged; the host computes a mean and a deviation
    just above these, the threshold is above 59 and no lot is flagged. *)
Example stage_outliers_of_the_host :
  (59 <? outlierThreshold Host.sqrt64
                          (durationsOf Samples.assemblyStage Samples.slowRun))%float
  = true
  /\ option_map Insights.outliers
                (transformInsightsData Host.newDate Host.sqrt64 Samples.slowRun)
     = Some [].
Proof. split; vm_compute; reflexivity. Qed.

(** Where [groupBy] throws, on an error type that is a name every object
    inherits, the section stays the empty object. *)
Example insights_left_empty :
  flaggedTypes Samples.inheritedOnce = ["constructor"]
  /\ transformInsightsData Host.newDate Host.sqrt64 Samples.inheritedOnce = None.
Proof. split; vm_compute; reflexivity. Qed.

(** ** The pairs of the lag correlation *)

Lemma skipn_nth_error (A : Type) (l : list A) (i : nat) (x : A) :
  nth_error l i = Some x -> skipn i l = x :: skipn (S i) l.
Proof.
  revert i. induction l as [|y l IH]; intros [|i] H; simpl in *; try discriminate.
  - now injection H as ->.
  - now apply IH.
Qed.

Lemma lagPairs_suffix (mc : list ExternalRFT.Comparison.t) (lag : nat)
      (l pre : list ExternalRFT.Comparison.t) :
  mc = (pre ++ l)%list ->
  flat_map
    (fun e : nat * ExternalRFT.Comparison.t =>
       let (index, item) := e in
       if (lag <=? index)%nat then
         match nth_error mc (index - lag) with
         | Some internalMonth =>
             if (0 <? ExternalRFT.Comparison.externalRFT item)%float
                && (0 <? ExternalRFT.Comparison.internalRFT internalMonth)%float
             then [ExternalRFT.Pair.mk
                     (ExternalRFT.Comparison.internalRFT internalMonth)
                     (ExternalRFT.Comparison.externalRFT item)]
             else []
         | None => []
         end
       else [])
    (combine (seq (List.length pre) (List.length l)) l)
  = map pairOf
        (filter bothPositive
                (combine (skipn (lag - List.length pre) l)
                         (skipn (List.length pre - lag) mc))).
Proof.
  revert pre. induction l as [|x l IH]; intros pre Hmc.
  - simpl. now rewrite skipn_nil.
  - assert (Hmc' : mc = ((pre ++ [x]) ++ l)%list) by now rewrite <- app_assoc.
    specialize (IH (pre ++ [x])%list Hmc').
    rewrite length_app in IH. simpl List.length in IH.
    rewrite Nat.add_1_r in IH.
    cbn [List.length seq combine flat_map]. rewrite IH. clear IH.
    destruct (lag <=? List.length pre)%nat eqn:Hlag.
    + apply Nat.leb_le in Hlag.
      assert (Hnth : nth_error mc (List.length pre - lag)
                     = Some (nth (List.length pre - lag) mc x)).
      { apply nth_error_nth'. rewrite Hmc, length_app. simpl. lia. }
      rewrite Hnth, (skipn_nth_error _ _ _ _ Hnth).
      replace (lag - List.length pre)%nat with 0%nat by lia.
      replace (lag - S (List.length pre))%nat with 0%nat by lia.
      replace (S (List.length pre) - lag)%nat with (S (List.length pre - lag)) by lia.
      cbn [skipn combine filter]. unfold bothPositive at 2. cbn [fst snd].
      destruct ((0 <? ExternalRFT.Comparison.externalRFT x)%float
                && (0 <? ExternalRFT.Comparison.internalRFT
                           (nth (List.length pre - lag) mc x))%float); reflexivity.
    + apply Nat.leb_gt in Hlag.
      replace (lag - List.length pre)%nat with (S (lag - S (List.length pre))) by lia.
      replace (S (List.length pre) - lag)%nat with 0%nat by lia.
      replace (List.length pre - lag)%nat with 0%nat by lia.
      reflexivity.
Qed.

Lemma lagPairs_aligned (mc : list ExternalRFT.Comparison.t) (lag : nat) :
  lagPairs mc lag = map pairOf (filter bothPositive (aligned mc lag)).
Proof.
  unfold lagPairs, aligned.
  pose proof (lagPairs_suffix mc lag mc [] eq_refl) as H.
  cbn [List.length] in H. rewrite Nat.sub_0_r in H. exact H.
Qed.

(** C10. The pairs of a lag are built from the months in which both the
    external rate and the internal rate [lag] months earlier are
    positive: a pair of months with a rate of 0 on either side is left
    out, so that it enters neither the correlation nor the count that
    must reach 3. *)
Theorem lagPairs_exclude_zero_rates
        (sqrt : float -> float) (monthlyComparison : list ExternalRFT.Comparison.t)
        (lag : nat) :
  let kept := filter bothPositive (aligned monthlyComparison lag) in
  lagPairs monthlyComparison lag = map pairOf kept
  /\ (forall item internalMonth,
         In (item, internalMonth) (aligned monthlyComparison lag) ->
         (ExternalRFT.Comparison.externalRFT item =? 0)%float = true
         \/ (ExternalRFT.Comparison.internalRFT internalMonth =? 0)%float = true ->
         ~ In (item, internalMonth) kept)
  /\ (forall best, (List.length kept < 3)%nat ->
                   lagStep sqrt monthlyComparison best lag = best)
  /\ (forall best, (3 <= List.length kept)%nat ->
                   lagStep sqrt monthlyComparison best lag
                   = if (PrimFloat.abs (fst best)
                         <? PrimFloat.abs (correlationOf sqrt (map pairOf kept)))%float
                     then (correlationOf sqrt (map pairOf kept), lag)
                     else best).
Proof.
  intro kept.
  assert (Hp : lagPairs monthlyComparison lag = map pairOf kept)
    by apply lagPairs_aligned.
  split; [exact Hp|]. split; [|split].
  - intros item internalMonth _ Hzero Hin.
    apply filter_In in Hin. destruct Hin as [_ Hb].
    unfold bothPositive in Hb. cbn [fst snd] in Hb.
    apply andb_true_iff in Hb. destruct Hb as [He Hi].
    destruct Hzero as [Hz | Hz]; apply eqb_not_ltb in Hz; congruence.
  - intros best Hlt. unfold lagStep. rewrite Hp, length_map.
    apply Nat.leb_gt in Hlt. now rewrite Hlt.
  - intros best Hge. unfold lagStep. rewrite Hp, length_map.
    apply Nat.leb_le in Hge. now rewrite Hge.
Qed.

Lemma lagPairs_exclude_zero_rates_witness :
  In (ExternalRFT.Comparison.mk "2024-01" 0 100 1 1,
      ExternalRFT.Comparison.mk "2024-01" 0 100 1 1)
     (aligned Samples.comparison 0)
  /\ ~ In (ExternalRFT.Comparison.mk "2024-01" 0 100 1 1,
           ExternalRFT.Comparison.mk "2024-01" 0 100 1 1)
          (filter bothPositive (aligned Samples.comparison 0))
  /\ lagStep Host.sqrt64 Samples.comparison (0%float, 0%nat) 0 = (0%float, 0%nat).
Proof.
  split; [simpl; tauto|]. split.
  - apply (proj1 (proj2 (lagPairs_exclude_zero_rates Host.sqrt64 Samples.comparison 0))).
    + simpl; tauto.
    + left. reflexivity.
  - apply (proj1 (proj2 (proj2 (lagPairs_exclude_zero_rates
                                  Host.sqrt64 Samples.comparison 0)))).
    vm_compute. lia.
Defined.

(** ** The selection of the lag *)

Section LagSelection.
Variable sqrt : float -> float.
Variable mc : list ExternalRFT.Comparison.t.

Let eligible := Reading.eligible mc.
Let score := Reading.score sqrt mc.
Let strength := Reading.strength sqrt mc.
Let examined := Reading.examined sqrt mc.

Lemma examined_step (n : nat) (best : float * nat) :
  examined n best -> examined (S n) (lagStep sqrt mc best n).
Proof.
  intros [Hmax Hsel]. unfold lagStep.
  destruct (3 <=? List.length (lagPairs mc n))%nat eqn:Hel.
  - apply Nat.leb_le in Hel.
    change (correlationOf sqrt (lagPairs mc n)) with (score n).
    change (PrimFloat.abs (score n)) with (strength n).
    destruct (PrimFloat.abs (fst best) <? strength n)%float eqn:Hcmp.
    + split.
      * intros k Hk Hek. cbn [fst]. unfold exceeds.
        change (PrimFloat.abs (score n)) with (strength n).
        destruct (Nat.eq_dec k n) as [-> | Hne]; [apply ltb_irrefl|].
        apply (ltb_above _ _ _ Hcmp). apply Hmax; [lia | exact Hek].
      * right. cbn [fst snd]. unfold exceeds.
        change (PrimFloat.abs (score n)) with (strength n).
        split; [lia|]. split; [exact Hel|]. split; [reflexivity|]. split.
        -- apply (ltb_below (PrimFloat.abs (fst best)));
             [apply abs_not_below_zero | exact Hcmp | reflexivity].
        -- intros k Hk Hek.
           destruct (isNaN (Reading.score sqrt mc k)) eqn:Hnan; [now right | left].
           apply (ltb_below (PrimFloat.abs (fst best))); [| exact Hcmp |].
           ++ apply Hmax; [lia | exact Hek].
           ++ unfold Reading.strength. rewrite isNaN_abs. exact Hnan.
    + split.
      * intros k Hk Hek.
        destruct (Nat.eq_dec k n) as [-> | Hne]; [exact Hcmp|].
        apply Hmax; [lia | exact Hek].
      * destruct Hsel as [[Hbest Hzero] | (Hl & Hel' & Hc & Hpos & Hfirst)].
        -- left. split; [exact Hbest|]. intros k Hk Hek.
           destruct (Nat.eq_dec k n) as [-> | Hne]; [|apply Hzero; [lia | exact Hek]].
           rewrite Hbest in Hcmp. exact Hcmp.
        -- right. repeat split; try assumption. lia.
  - apply Nat.leb_gt in Hel. split.
    + intros k Hk Hek.
      destruct (Nat.eq_dec k n) as [-> | Hne]; [unfold eligible, Reading.eligible in Hek; lia|].
      apply Hmax; [lia | exact Hek].
    + destruct Hsel as [[Hbest Hzero] | (Hl & Hel' & Hc & Hpos & Hfirst)].
      * left. split; [exact Hbest|]. intros k Hk Hek.
        destruct (Nat.eq_dec k n) as [-> | Hne]; [unfold eligible, Reading.eligible in Hek; lia|].
        apply Hzero; [lia | exact Hek].
      * right. repeat split; try assumption. lia.
Qed.

Lemma examined_fold (n : nat) :
  examined n (fold_left (lagStep sqrt mc) (seq 0 n) (0%float, 0%nat)).
Proof.
  induction n as [|n IH].
  - split; [intros k Hk; lia|]. left. split; [reflexivity | intros k Hk; lia].
  - rewrite seq_S, fold_left_app. simpl. apply examined_step, IH.
Qed.

End LagSelection.

(** The impact analysis of the external section is the selection made
    on its monthly comparison. *)
Lemma impactAnalysis_is_lagCorrelation
      (newDate : string -> option JSDate) (sqrt : float -> float) (records : list record)
      (section : ExternalRFT.t) :
  transformExternalRFTData newDate sqrt records = Some section ->
  (ExternalRFT.Impact.correlation (ExternalRFT.impactAnalysis section),
   ExternalRFT.Impact.lagTime (ExternalRFT.impactAnalysis section))
  = lagCorrelation sqrt (ExternalRFT.monthlyComparison section).
Proof.
  unfold transformExternalRFTData.
  destruct records as [|r rs]; [discriminate|].
  destruct (filter isExternal (r :: rs)) as [|e es]; [discriminate|].
  destruct (lagCorrelation sqrt _) as [c l] eqn:E.
  intros [= <-]. exact (eq_sym E).
Qed.

(** C2, as stated, fails on [Samples.laggedRun]: only lag 1 yields three
    pairs (its correlation is 0, the internal rate being constant), and
    the engine reports lag 0, for which no correlation was computed. *)
Lemma lag_selection_reports_unexamined_lag :
  option_map ExternalRFT.monthlyComparison
             (transformExternalRFTData Host.newDate Host.sqrt64 Samples.laggedRun)
  = Some Samples.comparison
  /\ map (fun lag => List.length (lagPairs Samples.comparison lag)) [0; 1; 2; 3]%nat
     = [2; 3; 2; 1]%nat
  /\ option_map (fun section =>
                   ExternalRFT.Impact.lagTime (ExternalRFT.impactAnalysis section))
                (transformExternalRFTData Host.newDate Host.sqrt64 Samples.laggedRun)
     = Some 0%nat
  /\ snd (statedSelection Host.sqrt64 Samples.comparison) = 1%nat
  /\ lagCorrelation Host.sqrt64 Samples.comparison
     <> statedSelection Host.sqrt64 Samples.comparison.
Proof.
  repeat split; try (vm_compute; reflexivity).
  vm_compute. intro H. injection H as H. discriminate H.
Qed.

(** C2, amended. The selection examines every lag of [0, 3] and computes
    a correlation only for a lag with at least three pairs, the numbers
    being those of the host.  No such lag has a correlation that exceeds
    the reported one in absolute value, and a lag whose correlation
    merely equals the best one in absolute value does not replace it;
    when the reported correlation is not 0 the reported lag is the
    first to reach it; and when no lag has three pairs, or no computed
    correlation exceeds 0 in absolute value, the result is correlation
    0 and lag 0. *)
Theorem lag_selection (sqrt : float -> float) (mc : list ExternalRFT.Comparison.t) :
  let best := lagCorrelation sqrt mc in
  maxLag = 3%nat
  /\ (snd best <= maxLag)%nat
  /\ (forall pair lag, ~ eligible mc lag -> lagStep sqrt mc pair lag = pair)
  /\ (forall pair lag, eligible mc lag ->
                       exceeds (strength sqrt mc lag) (PrimFloat.abs (fst pair)) = true ->
                       lagStep sqrt mc pair lag = (score sqrt mc lag, lag))
  /\ (forall pair lag, eligible mc lag ->
                       (strength sqrt mc lag =? PrimFloat.abs (fst pair))%float = true ->
                       lagStep sqrt mc pair lag = pair)
  /\ (forall k, (k <= maxLag)%nat -> eligible mc k ->
                exceeds (strength sqrt mc k) (PrimFloat.abs (fst best)) = false)
  /\ ((best = (0%float, 0%nat)
       /\ forall k, (k <= maxLag)%nat -> eligible mc k ->
                    exceeds (strength sqrt mc k) 0 = false)
      \/ (eligible mc (snd best)
          /\ fst best = score sqrt mc (snd best)
          /\ exceeds (PrimFloat.abs (fst best)) 0 = true
          /\ forall k, (k < snd best)%nat -> eligible mc k ->
                       exceeds (PrimFloat.abs (fst best)) (strength sqrt mc k) = true
                       \/ isNaN (score sqrt mc k) = true))
  /\ ((forall k, (k <= maxLag)%nat -> ~ eligible mc k) -> best = (0%float, 0%nat)).
Proof.
  intro best.
  destruct (examined_fold sqrt mc (S maxLag)) as [Hmax Hsel].
  fold (lagCorrelation sqrt mc) in Hmax, Hsel. fold best in Hmax, Hsel.
  split; [reflexivity|].
  split; [|split; [|split; [|split; [|split; [|split]]]]].
  - destruct Hsel as [[-> _] | (Hl & _)]; [simpl; lia | lia].
  - intros pair lag Hn. unfold lagStep.
    destruct (3 <=? List.length (lagPairs mc lag))%nat eqn:E; [|reflexivity].
    apply Nat.leb_le in E. contradiction.
  - intros pair lag He Hx. unfold lagStep.
    apply Nat.leb_le in He. rewrite He.
    unfold exceeds, strength, score in Hx. now rewrite Hx.
  - intros pair lag He Hx. unfold lagStep.
    apply Nat.leb_le in He. rewrite He.
    unfold strength, score in Hx. apply eqb_not_ltb in Hx. now rewrite Hx.
  - intros k Hk. apply Hmax. lia.
  - destruct Hsel as [[Hb Hz] | (Hl & He & Hc & Hp & Hf)].
    + left. split; [exact Hb|]. intros k Hk. apply Hz. lia.
    + right. repeat split; assumption.
  - intro Hnone. destruct Hsel as [[Hb _] | (Hl & He & _)]; [exact Hb|].
    exfalso. apply (Hnone (snd best)); [lia | exact He].
Qed.

Lemma lag_selection_witness :
  eligible Samples.opposed 0 /\ eligible Samples.opposed 1
  /\ snd (lagCorrelation Host.sqrt64 Samples.opposed) = 1%nat
  /\ fst (lagCorrelation Host.sqrt64 Samples.opposed) = score Host.sqrt64 Samples.opposed 1
  /\ (exceeds (PrimFloat.abs (fst (lagCorrelation Host.sqrt64 Samples.opposed)))
              (strength Host.sqrt64 Samples.opposed 0) = true
      \/ isNaN (score Host.sqrt64 Samples.opposed 0) = true)
  /\ lagStep Host.sqrt64 Samples.opposed (lagCorrelation Host.sqrt64 Samples.opposed) 2
     = lagCorrelation Host.sqrt64 Samples.opposed.
Proof.
  assert (H0 : eligible Samples.opposed 0) by (vm_compute; lia).
  assert (H1 : eligible Samples.opposed 1) by (vm_compute; lia).
  assert (Hl : snd (lagCorrelation Host.sqrt64 Samples.opposed) = 1%nat)
    by (vm_compute; reflexivity).
  destruct (lag_selection Host.sqrt64 Samples.opposed)
    as (_ & _ & Hskip & _ & _ & _ & Hsel & _).
  split; [exact H0|]. split; [exact H1|]. split; [exact Hl|].
  destruct Hsel as [[Hb _] | (_ & Hc & _ & Hfirst)].
  - rewrite Hb in Hl. discriminate Hl.
  - split; [rewrite Hc, Hl; reflexivity|].
    split; [apply Hfirst; [rewrite Hl; lia | exact H0]|].
    apply Hskip. vm_compute. lia.
Defined.

(** The correlations compared are those of the host.  In
    [Samples.opposedRun] the external rate falls as the internal one
    rises, along a line: in exact arithmetic the correlation is -1 at
    the lags 0 and 1, and lag 0, the first, would be reported.  The host
    computes a correlation just above -1 at lag 0 and -1 at lag 1: lag
    1 is reported. *)
Example lag_selection_of_the_host :
  option_map ExternalRFT.monthlyComparison
             (transformExternalRFTData Host.newDate Host.sqrt64 Samples.opposedRun)
  = Some Samples.opposed
  /\ map (fun lag => List.length (lagPairs Samples.opposed lag)) [0; 1; 2; 3]%nat
     = [4; 3; 2; 1]%nat
  /\ (-1 <? score Host.sqrt64 Samples.opposed 0)%float = true
  /\ score Host.sqrt64 Samples.opposed 1 = (-1)%float
  /\ option_map (fun section =>
                   (ExternalRFT.Impact.correlation (ExternalRFT.impactAnalysis section),
                    ExternalRFT.Impact.lagTime (ExternalRFT.impactAnalysis section)))
                (transformExternalRFTData Host.newDate Host.sqrt64 Samples.opposedRun)
     = Some ((-1)%float, 1%nat).
Proof. repeat split; vm_compute; reflexivity. Qed.

(** ** Printing a number with one decimal and reading it back *)













(** ** The Pareto ranking *)


Section Pareto.
Variable total : Q.
Hypothesis total_pos : 0 < total.





End Pareto.




(** ** Objects as dictionaries *)

Section ObjectFacts.
Variable V : Type.

Lemma getProp_In (o : JSObject V) (k : string) (v : V) :
  NoDup (map fst o) -> (getProp o k = Some v <-> In (k, v) o).
Proof.
  unfold getProp. induction o as [|[k' v'] o IH]; intro Hnd; simpl.
  - split; [discriminate | tauto].
  - inversion Hnd as [|? ? Hk' Hnd']; subst.
    destruct (String.eqb_spec k' k) as [-> | Hne]; simpl.
    + split.
      * intros [= ->]. now left.
      * intros [[= ->] | Hin]; [reflexivity|].
        exfalso. apply Hk'. apply (in_map fst) in Hin. exact Hin.
    + rewrite (IH Hnd'). split; [tauto|].
      intros [[= -> _] | Hin]; [congruence | exact Hin].
Qed.

Lemma getProp_None (o : JSObject V) (k : string) :
  getProp o k = None <-> ~ In k (map fst o).
Proof.
  unfold getProp. induction o as [|[k' v'] o IH]; simpl.
  - tauto.
  - destruct (String.eqb_spec k' k) as [-> | Hne]; simpl.
    + split; [discriminate | tauto].
    + rewrite IH. tauto.
Qed.

Lemma setProp_absent (o : JSObject V) (k : string) (v : V) :
  ~ In k (map fst o) -> setProp o k v = (o ++ [(k, v)])%list.
Proof.
  induction o as [|[k' v'] o IH]; simpl; intro H; [reflexivity|].
  destruct (String.eqb_spec k' k) as [-> | Hne]; [tauto|].
  rewrite IH; [reflexivity | tauto].
Qed.

Lemma setProp_keys_present (o : JSObject V) (k : string) (v : V) :
  In k (map fst o) -> map fst (setProp o k v) = map fst o.
Proof.
  induction o as [|[k' v'] o IH]; simpl; intro H; [tauto|].
  destruct (String.eqb_spec k' k) as [-> | Hne]; [reflexivity|].
  simpl. rewrite IH; [reflexivity|]. destruct H; [congruence | assumption].
Qed.

Lemma setProp_In (o : JSObject V) (k : string) (v : V) (k' : string) (v' : V) :
  NoDup (map fst o) ->
  (In (k', v') (setProp o k v)
   <-> (k' = k /\ v' = v) \/ (k' <> k /\ In (k', v') o)).
Proof.
  induction o as [|[a b] o IH]; intro Hnd; simpl.
  - split.
    + intros [[= -> ->] | []]. now left.
    + intros [[-> ->] | [_ []]]. now left.
  - inversion Hnd as [|? ? Ha Hnd']; subst.
    destruct (String.eqb_spec a k) as [-> | Hne]; simpl.
    + split.
      * intros [[= -> ->] | Hin]; [now left|].
        right. split; [|now right].
        intros ->. apply Ha. apply (in_map fst) in Hin. exact Hin.
      * intros [[-> ->] | [Hk [[= -> _] | Hin]]]; [now left | congruence | now right].
    + rewrite (IH Hnd'). split.
      * intros [[= -> ->] | [H | [Hk Hin]]]; [right; split; [congruence | now left] | tauto |].
        right. split; [exact Hk | now right].
      * intros [H | [Hk [[= -> ->] | Hin]]]; [tauto | now left | tauto].
Qed.

Lemma setProp_NoDup (o : JSObject V) (k : string) (v : V) :
  NoDup (map fst o) -> NoDup (map fst (setProp o k v)).
Proof.
  intro Hnd. destruct (in_dec string_dec k (map fst o)) as [Hin | Hout].
  - now rewrite setProp_keys_present.
  - rewrite (setProp_absent _ _ _ Hout), map_app. simpl.
    apply NoDup_app; [exact Hnd | repeat constructor; tauto |].
    intros x Hx [<- | []]. exact (Hout Hx).
Qed.

End ObjectFacts.

(** ** Sorting the entries that satisfy a property *)

Section SortFactsOn.
Variable A : Type.
Variable precedes : A -> A -> bool.
Variable P : A -> Prop.

Hypothesis precedes_total : forall a b, precedes a b = false -> precedes b a = true.
Hypothesis precedes_trans :
  forall a b c, P a -> P b -> P c ->
                precedes a b = true -> precedes b c = true -> precedes a c = true.

Let R (a b : A) : Prop := precedes a b = true.


End SortFactsOn.

(** ** Splitting and trimming *)




Lemma trimStart_without (c : ascii) (s : string) :
  without c s = true -> without c (trimStart s) = true.
Proof.
  induction s as [| c' s IH]; intros H; [reflexivity |].
  cbn [trimStart]. destruct (isWhiteSpace c'); [| exact H].
  apply IH. simpl in H. apply andb_true_iff in H. tauto.
Qed.

Lemma trimEnd_without (c : ascii) (s : string) :
  without c s = true -> without c (trimEnd s) = true.
Proof.
  induction s as [| c' s IH]; intros H; [reflexivity |].
  simpl in H. apply andb_true_iff in H as [H1 H2].
  cbn [trimEnd]. destruct (trimEnd s) as [| c2 t] eqn:E.
  - destruct (isWhiteSpace c'); [reflexivity |]. simpl. rewrite H1. reflexivity.
  - cbn [without]. rewrite H1. apply IH, H2.
Qed.







(** ** Counting the error types *)

Import DataTransformer.







Lemma filter_partition_perm (A : Type) (f : A -> bool) (l : list A) :
  Permutation (filter f l ++ filter (fun x => negb (f x)) l)%list l.
Proof.
  induction l as [|x l IH]; simpl; [constructor|].
  destruct (f x); simpl.
  - now constructor.
  - apply Permutation_sym, Permutation_cons_app, Permutation_sym, IH.
Qed.

Lemma entries_perm (V : Type) (o : JSObject V) : Permutation (entries o) o.
Proof.
  unfold entries.
  eapply perm_trans; [|apply (filter_partition_perm _ (@isIndexKey V) o)].
  apply Permutation_app_tail, arraySort_perm.
Qed.










(** ** The order of the month keys *)

Lemma string_leb_trans (s1 s2 s3 : string) :
  String.leb s1 s2 = true -> String.leb s2 s3 = true -> String.leb s1 s3 = true.
Proof.
  unfold String.leb. revert s2 s3.
  induction s1 as [|c1 s1 IH]; intros [|c2 s2] [|c3 s3]; simpl; try congruence.
  unfold Ascii.compare.
  destruct (N.compare_spec (N_of_ascii c1) (N_of_ascii c2)) as [E12 | L12 | G12];
    destruct (N.compare_spec (N_of_ascii c2) (N_of_ascii c3)) as [E23 | L23 | G23];
    try congruence; intros H12 H23.
  - rewrite E12, E23, N.compare_refl. apply (IH s2 s3 H12 H23).
  - rewrite E12. now apply N.compare_lt_iff in L23 as ->.
  - rewrite <- E23. now apply N.compare_lt_iff in L12 as ->.
  - assert (L13 : (N_of_ascii c1 < N_of_ascii c3)%N) by lia.
    now apply N.compare_lt_iff in L13 as ->.
Qed.

Lemma string_leb_total (a b : string) : String.leb a b = false -> String.leb b a = true.
Proof. intro H. destruct (String.leb_total a b); congruence. Qed.

Lemma string_leb_ltb (a b : string) :
  String.leb a b = true -> a <> b -> String.ltb a b = true.
Proof.
  unfold String.leb, String.ltb. intros H Hne.
  destruct (String.compare a b) eqn:E; try congruence.
  apply String.compare_eq_iff in E. congruence.
Qed.

Lemma sorted_strict (l : list string) :
  NoDup l -> StronglySorted (fun a b => String.leb a b = true) l ->
  StronglySorted (fun a b => String.ltb a b = true) l.
Proof.
  intros Hnd Hs. induction Hs as [|x l Hs IH Hall]; constructor.
  - apply IH. now inversion Hnd.
  - inversion Hnd as [|? ? Hx _]; subst.
    rewrite Forall_forall in *. intros y Hy.
    apply string_leb_ltb; [apply Hall, Hy | intros ->; exact (Hx Hy)].
Qed.

(** [slice(-n)] with a positive [n] keeps the last [n] elements, and
    [slice(-0)] keeps them all. *)
Lemma slice_last (A : Type) (n : Z) (l : list A) :
  (1 <= n)%Z -> slice (- n) None l = skipn (List.length l - Z.to_nat n) l.
Proof.
  intro Hn. unfold slice, sliceBound.
  destruct (- n <? 0)%Z eqn:E; [|apply Z.ltb_ge in E; lia].
  replace (Z.to_nat (Z.max (Z.of_nat (List.length l) + - n) 0))
    with (List.length l - Z.to_nat n)%nat by lia.
  apply firstn_all2. rewrite length_skipn. lia.
Qed.

Lemma slice_minus_zero (A : Type) (l : list A) : slice (- 0) None l = l.
Proof.
  unfold slice, sliceBound. simpl.
  rewrite Z.min_l by lia. simpl. rewrite Z.sub_0_r, Nat2Z.id. apply firstn_all.
Qed.

(** ** Grouping by month *)

Section Grouping.
Variable newDate : string -> option JSDate.
Variable dateField : record -> option string.

Let step (groups : JSObject (list record)) (r : record) : JSObject (list record) :=
  match bucketOf newDate dateField r with
  | Some k => pushTo groups k r
  | None => groups
  end.

Lemma fold_valid_records (records : list record) (o : JSObject (list record)) :
  fold_left (fun groups r =>
               match dateOf newDate (dateField r) with
               | Some date => pushTo groups (monthKey date) r
               | None => groups
               end)
            (filter (fun r => validDate (dateField r)) records) o
  = fold_left step records o.
Proof.
  revert o. induction records as [|r rs IH]; intro o; simpl; [reflexivity|].
  unfold step at 2, bucketOf.
  destruct (validDate (dateField r)); simpl; rewrite IH; [|reflexivity].
  now destruct (dateOf newDate (dateField r)).
Qed.

Lemma filter_snoc (k : string) (done : list record) (r : record) :
  filter (inBucket newDate dateField k) (done ++ [r])
  = (filter (inBucket newDate dateField k) done
     ++ if inBucket newDate dateField k r then [r] else [])%list.
Proof. rewrite filter_app. simpl. now destruct (inBucket newDate dateField k r). Qed.

Lemma grouped_step (o : JSObject (list record)) (done : list record) (r : record) :
  grouped newDate dateField o done -> grouped newDate dateField (step o r) (done ++ [r]).
Proof.
  intros (Hnd & Hin). unfold step.
  destruct (bucketOf newDate dateField r) as [k|] eqn:Ek.
  - assert (Hk : forall k', inBucket newDate dateField k' r = String.eqb k k').
    { intro k'. unfold inBucket. now rewrite Ek. }
    unfold pushTo. destruct (getProp o k) as [rs|] eqn:E.
    + apply (getProp_In _ o k rs Hnd) in E.
      pose proof (proj1 (Hin k rs) E) as [Hrs _].
      split; [now apply setProp_NoDup|].
      intros k' v. rewrite (setProp_In _ o k (rs ++ [r])%list k' v Hnd), filter_snoc, Hk.
      split.
      * intros [[-> ->] | [Hne H]].
        -- rewrite String.eqb_refl, <- Hrs. split; [reflexivity|].
           intro Hnil. now apply app_eq_nil in Hnil as [_ Hnil].
        -- apply Hin in H. destruct (String.eqb_spec k k'); [congruence|].
           now rewrite app_nil_r.
      * intros [Hv Hnn]. destruct (String.eqb_spec k k') as [<- | Hne].
        -- left. split; [reflexivity|]. now rewrite Hv, <- Hrs.
        -- right. split; [congruence|]. apply Hin. rewrite app_nil_r in Hv. now split.
    + assert (Hout : ~ In k (map fst o)) by now apply getProp_None.
      assert (Hempty : filter (inBucket newDate dateField k) done = []).
      { destruct (filter (inBucket newDate dateField k) done) as [|x xs] eqn:Ef;
          [reflexivity|].
        exfalso. apply Hout.
        assert (Hi : In (k, x :: xs) o) by (apply Hin; split; [now rewrite Ef | discriminate]).
        apply (in_map fst) in Hi. exact Hi. }
      split; [now apply setProp_NoDup|].
      intros k' v. rewrite (setProp_In _ o k [r] k' v Hnd), filter_snoc, Hk.
      split.
      * intros [[-> ->] | [Hne H]].
        -- rewrite String.eqb_refl, Hempty. split; [reflexivity | discriminate].
        -- apply Hin in H. destruct (String.eqb_spec k k'); [congruence|].
           now rewrite app_nil_r.
      * intros [Hv Hnn]. destruct (String.eqb_spec k k') as [<- | Hne].
        -- left. split; [reflexivity|]. now rewrite Hv, Hempty.
        -- right. split; [congruence|]. apply Hin. rewrite app_nil_r in Hv. now split.
  - assert (Hk : forall k', inBucket newDate dateField k' r = false).
    { intro k'. unfold inBucket. now rewrite Ek. }
    split; [exact Hnd|].
    intros k' v. rewrite filter_snoc, Hk, app_nil_r. apply Hin.
Qed.

Lemma grouped_fold (records : list record) (o : JSObject (list record))
      (done : list record) :
  grouped newDate dateField o done ->
  grouped newDate dateField (fold_left step records o) (done ++ records).
Proof.
  revert o done. induction records as [|r rs IH]; intros o done H; simpl.
  - now rewrite app_nil_r.
  - replace (done ++ r :: rs)%list with ((done ++ [r]) ++ rs)%list
      by now rewrite <- app_assoc.
    apply IH, grouped_step, H.
Qed.

Lemma grouped_empty : grouped newDate dateField [] [].
Proof.
  split; [constructor|]. intros k rs. simpl. split; [tauto | intros [-> H]; congruence].
Qed.

End Grouping.

Lemma build_result (mg acc : JSObject (list record)) (ks : list string) :
  (forall k, In k ks -> In k (map fst mg)) ->
  NoDup ks ->
  (forall k, In k ks -> ~ In k (map fst acc)) ->
  fold_left (fun result month =>
               match getProp mg month with
               | Some rs => setProp result month rs
               | None => result
               end)
            ks acc
  = (acc ++ map (fun k => (k, recordsOf mg k)) ks)%list.
Proof.
  revert acc. induction ks as [|k ks IH]; intros acc Hin Hnd Hacc; simpl.
  - now rewrite app_nil_r.
  - inversion Hnd as [|? ? Hk Hnd']; subst.
    unfold recordsOf at 1.
    destruct (getProp mg k) as [rs|] eqn:E.
    + rewrite (setProp_absent _ acc k rs (Hacc k (or_introl eq_refl))).
      rewrite IH; [now rewrite <- app_assoc | | exact Hnd' |].
      * intros k' Hk'. apply Hin. now right.
      * intros k' Hk'. rewrite map_app, in_app_iff. simpl.
        intros [H | [<- | []]]; [apply (Hacc k' (or_intror Hk') H) | exact (Hk Hk')].
    + exfalso. apply getProp_None in E. apply E, Hin. now left.
Qed.

Lemma slice_In (A : Type) (start : Z) (stop : option Z) (l : list A) (x : A) :
  In x (slice start stop l) -> In x l.
Proof.
  unfold slice. intro H.
  set (from := Z.to_nat (sliceBound (Z.of_nat (List.length l)) start)) in *.
  rewrite <- (firstn_skipn from l). apply in_or_app. right.
  set (n := Z.to_nat _) in H.
  rewrite <- (firstn_skipn n (skipn from l)). apply in_or_app. now left.
Qed.

Lemma slice_NoDup (A : Type) (start : Z) (stop : option Z) (l : list A) :
  NoDup l -> NoDup (slice start stop l).
Proof.
  unfold slice. intro H.
  set (from := Z.to_nat (sliceBound (Z.of_nat (List.length l)) start)).
  rewrite <- (firstn_skipn from l) in H. apply NoDup_app_remove_l in H.
  set (n := Z.to_nat _).
  rewrite <- (firstn_skipn n (skipn from l)) in H. now apply NoDup_app_remove_r in H.
Qed.

(** The months returned are a slice of the month keys present, taken in
    ascending order, each with its records; the records without a valid
    date are in no bucket. *)
Lemma groupRecordsByMonth_months
      (newDate : string -> option JSDate) (records : list record)
      (dateField : record -> option string) (limit : Z) :
  exists months : list string,
    StronglySorted (fun a b => String.ltb a b = true) months
    /\ (forall k, In k months
                  <-> exists r, In r records /\ bucketOf newDate dateField r = Some k)
    /\ groupRecordsByMonth newDate records (Some dateField) (Some limit)
       = map (fun k => (k, filter (inBucket newDate dateField k) records))
             (slice (- limit) None months)
    /\ Permutation
         (keys (groupRecordsByMonth newDate records (Some dateField) (Some limit)))
         (slice (- limit) None months).
Proof.
  unfold groupRecordsByMonth.
  rewrite fold_valid_records.
  set (mg := fold_left (fun groups r =>
                          match bucketOf newDate dateField r with
                          | Some k => pushTo groups k r
                          | None => groups
                          end) records []).
  assert (Hg : grouped newDate dateField mg records)
    by apply (grouped_fold newDate dateField records [] [] (grouped_empty _ _)).
  destruct Hg as [Hnd Hin].
  set (months := arraySort String.leb (keys mg)).
  assert (Hperm : Permutation months (map fst mg)).
  { eapply perm_trans; [apply arraySort_perm|]. apply Permutation_map, entries_perm. }
  assert (Hndm : NoDup months)
    by apply (Permutation_NoDup (Permutation_sym Hperm) Hnd).
  assert (Hkeys : forall k, In k months
                            <-> filter (inBucket newDate dateField k) records <> []).
  { intro k. split.
    - intro Hk. apply (Permutation_in _ Hperm) in Hk.
      apply in_map_iff in Hk. destruct Hk as ([k' rs] & Hfst & Hk).
      simpl in Hfst. subst k'. apply Hin in Hk. destruct Hk as [Hrs Hne].
      now rewrite <- Hrs.
    - intro Hne. apply (Permutation_in _ (Permutation_sym Hperm)).
      apply in_map_iff. exists (k, filter (inBucket newDate dateField k) records).
      split; [reflexivity|]. apply Hin. now split. }
  set (kept := slice (- limit) None months).
  assert (Hsub : forall k, In k kept -> In k months) by (intro k; apply slice_In).
  assert (Hres : fold_left (fun result month =>
                              match getProp mg month with
                              | Some rs => setProp result month rs
                              | None => result
                              end) kept []
                 = map (fun k => (k, filter (inBucket newDate dateField k) records)) kept).
  { rewrite build_result.
    - simpl. apply map_ext_in. intros k Hk. f_equal.
      apply Hsub, Hkeys in Hk.
      assert (Hi : In (k, filter (inBucket newDate dateField k) records) mg)
        by (apply Hin; now split).
      apply (getProp_In _ mg k _ Hnd) in Hi. unfold recordsOf. now rewrite Hi.
    - intros k Hk. apply (Permutation_in _ Hperm), Hsub, Hk.
    - apply slice_NoDup, Hndm.
    - intros k _ []. }
  exists months. rewrite Hres.
  split; [|split; [|split; [reflexivity|]]].
  - apply sorted_strict; [exact Hndm|].
    apply (arraySort_sorted _ String.leb string_leb_total string_leb_trans).
  - intro k. rewrite Hkeys. split.
    + intro Hne.
      destruct (filter (inBucket newDate dateField k) records) as [|r rs] eqn:E;
        [congruence|].
      assert (Hr : In r (filter (inBucket newDate dateField k) records))
        by (rewrite E; now left).
      apply filter_In in Hr. destruct Hr as [Hr Hb]. exists r. split; [exact Hr|].
      unfold inBucket in Hb. destruct (bucketOf newDate dateField r) as [k'|];
        [|discriminate]. apply String.eqb_eq in Hb. now subst.
    + intros (r & Hr & Hb) E.
      assert (Hi : In r (filter (inBucket newDate dateField k) records)).
      { apply filter_In. split; [exact Hr|]. unfold inBucket. rewrite Hb.
        apply String.eqb_refl. }
      rewrite E in Hi. exact Hi.
  - unfold keys. eapply perm_trans; [apply Permutation_map, entries_perm|].
    rewrite map_map. simpl. rewrite map_id. apply Permutation_refl.
Qed.

(** For a positive limit the function keeps the last [limit] month keys
    present, the largest ones in the order of the keys, and so never more
    than [limit] of them. *)
Lemma groupRecordsByMonth_recent_months
      (newDate : string -> option JSDate) (records : list record)
      (dateField : record -> option string) (limit : Z) :
  (1 <= limit)%Z ->
  exists months : list string,
    StronglySorted (fun a b => String.ltb a b = true) months
    /\ (forall k, In k months
                  <-> exists r, In r records /\ bucketOf newDate dateField r = Some k)
    /\ groupRecordsByMonth newDate records (Some dateField) (Some limit)
       = map (fun k => (k, filter (inBucket newDate dateField k) records))
             (skipn (List.length months - Z.to_nat limit) months)
    /\ Permutation
         (keys (groupRecordsByMonth newDate records (Some dateField) (Some limit)))
         (skipn (List.length months - Z.to_nat limit) months)
    /\ (List.length
          (keys (groupRecordsByMonth newDate records (Some dateField) (Some limit)))
        <= Z.to_nat limit)%nat.
Proof.
  intro Hlimit.
  destruct (groupRecordsByMonth_months newDate records dateField limit)
    as (months & Hs & Hk & Hr & Hp).
  rewrite (slice_last _ limit months Hlimit) in Hr, Hp.
  exists months. repeat split; try assumption; try apply Hk.
  rewrite (Permutation_length Hp), length_skipn. lia.
Qed.

(** With a limit of 0 the function returns every month present. *)
Lemma groupRecordsByMonth_no_limit
      (newDate : string -> option JSDate) (records : list record)
      (dateField : record -> option string) :
  exists months : list string,
    (forall k, In k months
               <-> exists r, In r records /\ bucketOf newDate dateField r = Some k)
    /\ Permutation
         (keys (groupRecordsByMonth newDate records (Some dateField) (Some 0%Z)))
         months.
Proof.
  destruct (groupRecordsByMonth_months newDate records dateField 0)
    as (months & _ & Hk & _ & Hp).
  rewrite slice_minus_zero in Hp. exists months. split; assumption.
Qed.

(** C8. The function is meant to keep at most [monthCount] months, the
    most recent ones; with a month count of 0 it returns every month: on
    [Samples.laggedRun] four months where at most 0 are expected. *)
Theorem groupRecordsByMonth_zero_limit :
  keys (groupRecordsByMonth Host.newDate Samples.laggedRun (Some assembly_start) (Some 0%Z))
  = ["2024-01"; "2024-02"; "2024-03"; "2024-04"]
  /\ ~ (List.length
          (keys (groupRecordsByMonth Host.newDate Samples.laggedRun
                                     (Some assembly_start) (Some 0%Z)))
        <= Z.to_nat 0)%nat
  /\ keys (groupRecordsByMonth Host.newDate Samples.laggedRun (Some assembly_start) (Some 2%Z))
     = ["2024-03"; "2024-04"].
Proof.
  split; [reflexivity|]. split; [|reflexivity].
  vm_compute. intro H. inversion H.
Qed.

(** ** Two runs of the engine *)

(** Two identical series correlate fully at lag 0. *)
Example identical_series_correlation :
  lagCorrelation Host.sqrt64 Samples.agreeing = (1%float, 0%nat).
Proof. vm_compute. reflexivity. Qed.

(** Three internal records of which two pass: a record count of 3 and a
    rate of two thirds of 100, 66.7 when printed with one decimal. *)
Example internal_section_of_three_lots :
  exists section,
    transformInternalRFTData Host.newDate Samples.internalRun = Some section
    /\ InternalRFT.recordCount section = 3%nat
    /\ InternalRFT.internalRFT section = (2 / 3 * 100)%float
    /\ toFixed1_64 (InternalRFT.internalRFT section) = "66.7".
Proof. eexists. repeat split; vm_compute; reflexivity. Qed.
